(** * zerodrop: the blacklist rule engine and its geofence arithmetic

    A shallow embedding of [geofence.go], [blacklist.go] and of the access
    path of the shot handler, together with the properties of the rule
    language that the specification states about them.

    Go values are modelled as the program has them: [float64] is Rocq's
    primitive binary64 [float], [uint] flag sets are [N] with [N.lor] and
    [N.land], strings are byte strings ([string]), [net.IP] is a byte
    slice, a nil pointer or nil slice is [None].  A run-time panic of the
    Go program (a slice expression out of range) is an explicit result. *)

From Stdlib Require Import String Ascii List Bool NArith ZArith Lia Floats DecimalString.
Import ListNotations.

(** ** External libraries

    Functions of third-party packages that the repository calls but does
    not define are collected in interfaces; every result below holds for
    all their implementations unless a hypothesis says otherwise. *)

(** [geo.Point] of golang-geo, built by [geo.NewPoint]. *)
Record Point := NewPoint { lat : float; lng : float }.

(** golang-geo's [Point.GreatCircleDistance], in kilometres. *)
Class GeoLib := { GreatCircleDistance : Point -> Point -> float }.

(** ** geofence.go *)

(** Geofence represents a point on the Earth with an accuracy radius. *)
Record Geofence := mkGeofence { Latitude : float; Longitude : float; Radius : float }.

(** SetIntersection is a description of the relationship between two sets
    ([uint] in the source; only the three low bits are ever used). *)
Definition SetIntersection := N.

(** [1 << iota] for [iota] = 0, 1, 2. *)
Definition IsDisjoint : SetIntersection := N.shiftl 1 0.
Definition IsSubset : SetIntersection := N.shiftl 1 1.
Definition IsSuperset : SetIntersection := N.shiftl 1 2.

(** Go's [x > y] on [float64]: false as soon as one side is NaN. *)
Definition fgt (x y : float) : bool := PrimFloat.ltb y x.

(** The test [i & flag != 0] used by the callers of [Intersection]. *)
Definition hasFlag (i flag : SetIntersection) : bool := negb (N.eqb (N.land i flag) 0).

Section Geo.
Context `{GeoLib}.

(** Intersection describes the relationship between two geofences. *)
Definition Intersection (mi tu : Geofence) : SetIntersection :=
  let miPoint := NewPoint (Latitude mi) (Longitude mi) in
  let tuPoint := NewPoint (Latitude tu) (Longitude tu) in
  let distance := (GreatCircleDistance miPoint tuPoint * 1000)%float in
  let ourRadius := (Radius mi + Radius tu)%float in
  if fgt ourRadius distance then IsDisjoint
  else
    let i : SetIntersection := 0%N in
    let i := if fgt (Radius mi - Radius tu)%float distance then N.lor i IsSuperset else i in
    let i := if fgt (Radius tu - Radius mi)%float distance then N.lor i IsSubset else i in
    i.

(** The distance in metres that [Intersection] compares radii with. *)
Definition metres (a b : Geofence) : float :=
  (GreatCircleDistance (NewPoint (Latitude a) (Longitude a))
                       (NewPoint (Latitude b) (Longitude b)) * 1000)%float.
End Geo.

(** ** Go run-time behaviour *)

(** A Go expression either yields a value or panics at run time. *)
Inductive Outcome (A : Type) : Type :=
| Returns (a : A)
| Panics (reason : string).
Arguments Returns {A} a.
Arguments Panics {A} reason.

Definition obind {A B} (m : Outcome A) (k : A -> Outcome B) : Outcome B :=
  match m with
  | Returns a => k a
  | Panics r => Panics r
  end.

Notation "x <- m ;; k" := (obind m (fun x => k))
  (at level 61, m at next level, right associativity).

(** Go's [error] values are observed only through [Error()]. *)
Definition error := string.

Definition byte := N.

Definition byteOf (c : ascii) : byte := N_of_ascii c.

Local Open Scope string_scope.

(** [s[:n]]: panics when [n] exceeds the length of [s]. *)
Definition sliceTo (s : string) (n : nat) : Outcome string :=
  if Nat.leb n (String.length s) then Returns (substring 0 n s)
  else Panics "slice bounds out of range".

(** [s[n:]]: panics when [n] exceeds the length of [s]. *)
Definition sliceFrom (s : string) (n : nat) : Outcome string :=
  if Nat.leb n (String.length s) then Returns (substring n (String.length s - n) s)
  else Panics "slice bounds out of range".

(** [s[n]]: panics when [n] is not an index of [s]. *)
Definition byteAt (s : string) (n : nat) : Outcome ascii :=
  match String.get n s with
  | Some c => Returns c
  | None => Panics "index out of range"
  end.

(** The parts of the Go standard library and of the third-party packages
    whose code is not modelled: the DNS resolver, the regular expression
    engine, number formatting, and the Unicode and IPv6 fall-backs of
    functions whose ASCII and IPv4 paths are written out below. *)
Class Platform := {
  (* unicode: strings.Map(unicode.ToLower, s), strings.TrimFunc(s, unicode.IsSpace),
     strings.TrimRightFunc(s, unicode.IsSpace) *)
  mapToLower : string -> string;
  trimFuncIsSpace : string -> string;
  trimRightFuncIsSpace : string -> string;
  (* net: IPv6 text, and the resolver, whose answers come with an error value *)
  parseIPv6 : string -> option (list byte);
  ipv6String : list byte -> string;
  ipNetString : list byte -> list byte -> string;
  lookupIP : string -> list (list byte) * option error;
  lookupAddr : string -> list string * option error;
  splitHostPort : string -> (string * string) + error;
  (* regexp: the error of compiling an expression, if any, and matching *)
  compileError : string -> option error;
  matchExpr : string -> string -> bool;
  findStringSubmatch : string -> string -> list string;
  (* strconv *)
  parseFloat64 : string -> float * option error;
  formatFloat : float -> string;
  quote : string -> string
}.

(** *** package strings *)
Module strings.

Definition isASCII (c : ascii) : bool := N.ltb (byteOf c) 128.

(** [asciiSpace]: tab, newline, vertical tab, form feed, carriage return, space. *)
Definition asciiSpace (c : ascii) : bool :=
  let n := byteOf c in
  (N.eqb n 9 || N.eqb n 10 || N.eqb n 11 || N.eqb n 12 || N.eqb n 13 || N.eqb n 32)%bool.

(** [strings.IndexByte]: the index of the first [c] in [s], or -1. *)
Fixpoint IndexByte (s : string) (c : ascii) : Z :=
  match s with
  | EmptyString => (-1)%Z
  | String a r =>
      if Ascii.eqb a c then 0%Z
      else let i := IndexByte r c in if (i <? 0)%Z then (-1)%Z else (i + 1)%Z
  end.

(** [strings.Split(s, sep)] for a separator of one byte. *)
Fixpoint Split (s : string) (sep : ascii) : list string :=
  match s with
  | EmptyString => [EmptyString]
  | String a r =>
      if Ascii.eqb a sep then EmptyString :: Split r sep
      else match Split r sep with
           | [] => [String a EmptyString]
           | l :: ls => String a l :: ls
           end
  end.

(** [strings.Join]. *)
Fixpoint Join (items : list string) (sep : string) : string :=
  match items with
  | [] => EmptyString
  | [x] => x
  | x :: rest => x ++ sep ++ Join rest sep
  end.

(** The first loop of [TrimSpace]: [inr] is the cut at the first ASCII
    non-space byte, [inl] the rest from a non-ASCII byte on. *)
Fixpoint trimStart (s : list ascii) : list ascii + list ascii :=
  match s with
  | [] => inr []
  | c :: r =>
      if negb (isASCII c) then inl s
      else if asciiSpace c then trimStart r
      else inr s
  end.

Section WithPlatform.
Context `{Platform}.

(** [strings.TrimSpace]: ASCII fast path from both ends, the Unicode
    trimming functions as soon as a non-ASCII byte is met. *)
Definition TrimSpace (s : string) : string :=
  match trimStart (list_ascii_of_string s) with
  | inl rest => trimFuncIsSpace (string_of_list_ascii rest)
  | inr rest =>
      match trimStart (rev rest) with
      | inl kept => trimRightFuncIsSpace (string_of_list_ascii (rev kept))
      | inr kept => string_of_list_ascii (rev kept)
      end
  end.

Definition lowerByte (c : ascii) : ascii :=
  let n := byteOf c in
  if (N.leb 65 n && N.leb n 90)%bool then ascii_of_N (n + 32) else c.

Fixpoint mapBytes (f : ascii -> ascii) (s : string) : string :=
  match s with
  | EmptyString => EmptyString
  | String c r => String (f c) (mapBytes f r)
  end.

(** [strings.ToLower]: byte-wise on ASCII-only strings, the Unicode
    mapping otherwise. *)
Definition ToLower (s : string) : string :=
  if forallb isASCII (list_ascii_of_string s) then mapBytes lowerByte s
  else mapToLower s.
End WithPlatform.

(** [strings.Replace(s, old, new, -1)] for a non-empty [old]; [skip]
    counts the bytes of a match still to be passed over. *)
Fixpoint replaceFrom (old new s : string) (skip : nat) : string :=
  match s with
  | EmptyString => EmptyString
  | String c r =>
      match skip with
      | S k => replaceFrom old new r k
      | O =>
          if String.prefix old s then new ++ replaceFrom old new r (String.length old - 1)
          else String c (replaceFrom old new r 0)
      end
  end.

Definition Replace (s old new : string) : string := replaceFrom old new s 0.

End strings.

(** *** package strconv *)
Module strconv.

(** [strconv.Itoa] on a non-negative count. *)
Definition Itoa (n : nat) : string := NilZero.string_of_uint (Nat.to_uint n).

Section WithPlatform.
Context `{Platform}.

(** [strconv.ParseFloat(s, 64)]. *)
Definition ParseFloat (s : string) : float * option error := parseFloat64 s.

(** [strconv.FormatFloat(f, 'f', -1, 64)]. *)
Definition FormatFloat (f : float) : string := formatFloat f.

(** [strconv.Quote]. *)
Definition Quote (s : string) : string := quote s.
End WithPlatform.

End strconv.

(** *** package net *)
Module net.

Definition IP := list byte.
Definition IPMask := list byte.
Record IPNet := mkIPNet { IPNet_IP : IP; IPNet_Mask : IPMask }.

Definition IPv4len : nat := 4.
Definition IPv6len : nat := 16.

Definition v4InV6Prefix : list byte := [0; 0; 0; 0; 0; 0; 0; 0; 0; 0; 255; 255]%N.

(** [net.IPv4]: the 16-byte form of an IPv4 address. *)
Definition IPv4 (a b c d : byte) : IP := (v4InV6Prefix ++ [a; b; c; d])%list.
Arguments IPv4 (a b c d)%_N.

Fixpoint bytesEqual (x y : list byte) : bool :=
  match x, y with
  | [], [] => true
  | a :: x', b :: y' => (N.eqb a b && bytesEqual x' y')%bool
  | _, _ => false
  end.

Definition isZeros (p : list byte) : bool := forallb (N.eqb 0) p.
Definition allFF (p : list byte) : bool := forallb (N.eqb 255) p.

(** [ip.To4()]: the 4-byte form, or nil when [ip] is not an IPv4 address. *)
Definition To4 (ip : IP) : option IP :=
  if Nat.eqb (length ip) IPv4len then Some ip
  else if (Nat.eqb (length ip) IPv6len && isZeros (firstn 10 ip)
           && N.eqb (nth 10 ip 0%N) 255 && N.eqb (nth 11 ip 0%N) 255)%bool
       then Some (firstn 4 (skipn 12 ip))
       else None.

(** [ip.Equal(x)]: an IPv4 address and its 16-byte form are equal. *)
Definition Equal (ip x : IP) : bool :=
  if Nat.eqb (length ip) (length x) then bytesEqual ip x
  else if (Nat.eqb (length ip) IPv4len && Nat.eqb (length x) IPv6len)%bool
       then (bytesEqual (firstn 12 x) v4InV6Prefix && bytesEqual ip (skipn 12 x))%bool
  else if (Nat.eqb (length ip) IPv6len && Nat.eqb (length x) IPv4len)%bool
       then (bytesEqual (firstn 12 ip) v4InV6Prefix && bytesEqual (skipn 12 ip) x)%bool
  else false.

Definition big : N := 16777215.

Definition isDigit (c : ascii) : bool := (N.leb 48 (byteOf c) && N.leb (byteOf c) 57)%bool.

(** [dtoi]: the decimal number at the start of [s], the count of bytes
    it takes, and whether there was one below [big]. *)
Fixpoint dtoiFrom (s : string) (n : N) (i : nat) : N * nat * bool :=
  match s with
  | String c r =>
      if isDigit c then
        let n' := (n * 10 + (byteOf c - 48))%N in
        if N.leb big n' then (big, i, false) else dtoiFrom r n' (S i)
      else if Nat.eqb i 0 then (0%N, 0, false) else (n, i, true)
  | EmptyString => if Nat.eqb i 0 then (0%N, 0, false) else (n, i, true)
  end.

Definition dtoi (s : string) : N * nat * bool := dtoiFrom s 0%N 0.

(** The loop of [parseIPv4] with [k] octets left to read. *)
Fixpoint parseOctets (k : nat) (first : bool) (s : string) : option (list byte) :=
  match k with
  | O => if Nat.eqb (String.length s) 0 then Some [] else None
  | S k' =>
      if Nat.eqb (String.length s) 0 then None
      else
        let afterDot :=
          if first then Some s
          else match s with
               | String c r => if Ascii.eqb c "." then Some r else None
               | EmptyString => None
               end in
        match afterDot with
        | None => None
        | Some s1 =>
            let '(n, c, ok) := dtoi s1 in
            if (negb ok || N.ltb 255 n)%bool then None
            else if (Nat.ltb 1 c && match s1 with String d _ => Ascii.eqb d "0" | _ => false end)%bool
                 then None
            else match parseOctets k' false (substring c (String.length s1 - c) s1) with
                 | Some l => Some (n :: l)
                 | None => None
                 end
        end
  end.

(** [parseIPv4]: dotted decimal, four octets, no leading zeros. *)
Definition parseIPv4 (s : string) : option IP :=
  match parseOctets IPv4len true s with
  | Some [a; b; c; d] => Some (IPv4 a b c d)
  | _ => None
  end.

(** [CIDRMask(ones, 8*l)], byte by byte. *)
Fixpoint maskBytes (l : nat) (n : N) : IPMask :=
  match l with
  | O => []
  | S l' =>
      if N.leb 8 n then 255%N :: maskBytes l' (n - 8)
      else N.lxor 255 (N.shiftr 255 n) :: maskBytes l' 0
  end.

Definition CIDRMask (ones : N) (bits : nat) : option IPMask :=
  if (negb (Nat.eqb bits (8 * IPv4len)) && negb (Nat.eqb bits (8 * IPv6len)))%bool then None
  else if N.ltb (N.of_nat bits) ones then None
  else Some (maskBytes (bits / 8) ones).

Fixpoint andBytes (x y : list byte) : list byte :=
  match x, y with
  | a :: x', b :: y' => N.land a b :: andBytes x' y'
  | _, _ => []
  end.

(** [ip.Mask(mask)]; nil when the lengths do not fit. *)
Definition Mask (ip : IP) (mask : IPMask) : option IP :=
  let mask := if (Nat.eqb (length mask) IPv6len && Nat.eqb (length ip) IPv4len
                  && allFF (firstn 12 mask))%bool then skipn 12 mask else mask in
  let ip := if (Nat.eqb (length mask) IPv4len && Nat.eqb (length ip) IPv6len
                && bytesEqual (firstn 12 ip) v4InV6Prefix)%bool then skipn 12 ip else ip in
  if Nat.eqb (length ip) (length mask) then Some (andBytes ip mask) else None.

Definition networkNumberAndMask (n : IPNet) : option (IP * IPMask) :=
  let ip := match To4 (IPNet_IP n) with Some p => Some p
            | None => if Nat.eqb (length (IPNet_IP n)) IPv6len then Some (IPNet_IP n) else None
            end in
  match ip with
  | None => None
  | Some ip =>
      if Nat.eqb (length (IPNet_Mask n)) IPv4len then
        if Nat.eqb (length ip) IPv4len then Some (ip, IPNet_Mask n) else None
      else if Nat.eqb (length (IPNet_Mask n)) IPv6len then
        if Nat.eqb (length ip) IPv4len then Some (ip, skipn 12 (IPNet_Mask n))
        else Some (ip, IPNet_Mask n)
      else None
  end.

(** [n.Contains(ip)]. *)
Definition Contains (n : IPNet) (ip : IP) : bool :=
  let '(nn, m) := match networkNumberAndMask n with Some p => p | None => ([], []) end in
  let ip := match To4 ip with Some x => x | None => ip end in
  if Nat.eqb (length ip) (length nn) then bytesEqual (andBytes nn m) (andBytes ip m)
  else false.

Fixpoint containsByte (s : string) (c : ascii) : bool :=
  match s with
  | EmptyString => false
  | String a r => (Ascii.eqb a c || containsByte r c)%bool
  end.

Definition uitoa (n : N) : string := NilZero.string_of_uint (N.to_uint n).

Section WithPlatform.
Context `{Platform}.

(** The scan of [ParseIP]: the first ['.'] or [':'] picks the parser. *)
Fixpoint parseIPScan (rest s : string) : option IP :=
  match rest with
  | EmptyString => None
  | String c r =>
      if Ascii.eqb c "." then parseIPv4 s
      else if Ascii.eqb c ":" then parseIPv6 s
      else parseIPScan r s
  end.

Definition ParseIP (s : string) : option IP := parseIPScan s s.

(** [ParseCIDR]: the address and the network it lies in, or an error. *)
Definition ParseCIDR (s : string) : (IP * IPNet) + error :=
  let i := strings.IndexByte s "/" in
  if (i <? 0)%Z then inr ("invalid CIDR address: " ++ s)
  else
    let addr := substring 0 (Z.to_nat i) s in
    let mask := substring (Z.to_nat i + 1) (String.length s - (Z.to_nat i + 1)) s in
    let '(iplen, ip) :=
      match parseIPv4 addr with
      | Some ip => (IPv4len, Some ip)
      | None => (IPv6len, parseIPv6 addr)
      end in
    let '(n, j, ok) := dtoi mask in
    match ip with
    | Some ip =>
        if (negb ok || negb (Nat.eqb j (String.length mask))
            || N.ltb (N.of_nat (8 * iplen)) n)%bool
        then inr ("invalid CIDR address: " ++ s)
        else
          match CIDRMask n (8 * iplen) with
          | Some m =>
              match Mask ip m with
              | Some masked => inl (ip, mkIPNet masked m)
              | None => inl (ip, mkIPNet [] m)
              end
          | None => inr ("invalid CIDR address: " ++ s)
          end
    | None => inr ("invalid CIDR address: " ++ s)
    end.

(** [ip.String()]: dotted decimal for IPv4 addresses. *)
Definition IP_String (ip : IP) : string :=
  if Nat.eqb (length ip) 0 then "<nil>"
  else match To4 ip with
       | Some [a; b; c; d] => uitoa a ++ "." ++ uitoa b ++ "." ++ uitoa c ++ "." ++ uitoa d
       | _ => ipv6String ip
       end.

(** [n.String()]. *)
Definition IPNet_String (n : IPNet) : string := ipNetString (IPNet_IP n) (IPNet_Mask n).

(** [net.LookupIP] and [net.LookupAddr]: the answers and the error. *)
Definition LookupIP (host : string) : list IP * option error := lookupIP host.
Definition LookupAddr (addr : string) : list string * option error := lookupAddr addr.
End WithPlatform.

End net.

(** *** package regexp *)
Module regexp.

(** A compiled expression is determined by its source text, which
    [String()] gives back. *)
Record Regexp := mkRegexp { expr : string }.

(** The bytes [QuoteMeta] escapes. *)
Definition special (c : ascii) : bool :=
  existsb (Ascii.eqb c) (list_ascii_of_string "\.+*?()|[]{}^$").

Fixpoint QuoteMeta (s : string) : string :=
  match s with
  | EmptyString => EmptyString
  | String c r => if special c then String "\" (String c (QuoteMeta r)) else String c (QuoteMeta r)
  end.

Section WithPlatform.
Context `{Platform}.

Definition Compile (e : string) : Regexp + error :=
  match compileError e with
  | None => inl (mkRegexp e)
  | Some err => inr err
  end.

Definition Regexp_String (re : Regexp) : string := expr re.

(** [re.Match(b)] and [re.MatchString(s)]. *)
Definition Match (re : Regexp) (b : string) : bool := matchExpr (expr re) b.

(** [regexp.MatchString(pattern, s)]: compile, then match. *)
Definition MatchString (pattern s : string) : bool * option error :=
  match Compile pattern with
  | inr err => (false, Some err)
  | inl re => (Match re s, None)
  end.

(** [re.FindStringSubmatch(s)]: nil when [s] does not match. *)
Definition FindStringSubmatch (re : Regexp) (s : string) : list string :=
  findStringSubmatch (expr re) s.
End WithPlatform.

End regexp.

(** *** package geoip2 *)
Module geoip2.

Record CityLocation := {
  AccuracyRadius : N; (* uint16, kilometres *)
  Latitude : float;
  Longitude : float
}.

Record City := { Location : CityLocation }.

(** An open database, seen through its [City] method. *)
Record Reader := { Reader_City : net.IP -> City + error }.

End geoip2.

(** *** package ipcat *)
Module ipcat.

Record Interval := { Name : string }.

(** An interval set, seen through its [Contains] method: the interval
    of a dotted-quad address, if any, and the error. *)
Record IntervalSet := { Contains : string -> option Interval * option error }.

End ipcat.

(** ** A method with a pointer receiver reads and writes its receiver *)

Definition State (S A : Type) : Type := S -> A * S.

Definition sret {S A} (a : A) : State S A := fun s => (a, s).

Definition sbind {S A B} (m : State S A) (k : A -> State S B) : State S B :=
  fun s => let (a, s') := m s in k a s'.

Definition sget {S} : State S S := fun s => (s, s).

Definition smodify {S} (f : S -> S) : State S unit := fun s => (tt, f s).

Notation "x <~ m ;; k" := (sbind m (fun x => k))
  (at level 61, m at next level, right associativity).
Notation "m ;;; k" := (sbind m (fun _ => k))
  (at level 61, right associativity).

(** ** blacklist.go *)

(** BlacklistContext contains the external data used to categorize IP
    addresses: the geolocation database and the ipcat database. *)
Record BlacklistContext := mkContext {
  GeoDB : option geoip2.Reader;
  IPSet : option ipcat.IntervalSet
}.

(** BlacklistRule represents a rule or comment as part of a blacklist.
    The field of type [*Geofence] is [Geofence'] here, the name of the
    type being taken. *)
Record BlacklistRule := mkRule {
  Comment : string;
  Negation : bool;
  All : bool;
  Network : option net.IPNet;
  IP : option net.IP;
  Hostname : string;
  Regexp : option regexp.Regexp;
  Geofence' : option Geofence;
  IPCat : string
}.

(** [&BlacklistRule{}] *)
Definition zeroRule : BlacklistRule := mkRule "" false false None None "" None None "".

Definition setComment (v : string) (i : BlacklistRule) : BlacklistRule :=
  mkRule v (Negation i) (All i) (Network i) (IP i) (Hostname i) (Regexp i) (Geofence' i) (IPCat i).
Definition setNegation (v : bool) (i : BlacklistRule) : BlacklistRule :=
  mkRule (Comment i) v (All i) (Network i) (IP i) (Hostname i) (Regexp i) (Geofence' i) (IPCat i).
Definition setAll (v : bool) (i : BlacklistRule) : BlacklistRule :=
  mkRule (Comment i) (Negation i) v (Network i) (IP i) (Hostname i) (Regexp i) (Geofence' i) (IPCat i).
Definition setNetwork (v : net.IPNet) (i : BlacklistRule) : BlacklistRule :=
  mkRule (Comment i) (Negation i) (All i) (Some v) (IP i) (Hostname i) (Regexp i) (Geofence' i) (IPCat i).
Definition setIP (v : net.IP) (i : BlacklistRule) : BlacklistRule :=
  mkRule (Comment i) (Negation i) (All i) (Network i) (Some v) (Hostname i) (Regexp i) (Geofence' i) (IPCat i).
Definition setHostname (v : string) (i : BlacklistRule) : BlacklistRule :=
  mkRule (Comment i) (Negation i) (All i) (Network i) (IP i) v (Regexp i) (Geofence' i) (IPCat i).
Definition setRegexp (v : regexp.Regexp) (i : BlacklistRule) : BlacklistRule :=
  mkRule (Comment i) (Negation i) (All i) (Network i) (IP i) (Hostname i) (Some v) (Geofence' i) (IPCat i).
Definition setGeofence (v : Geofence) (i : BlacklistRule) : BlacklistRule :=
  mkRule (Comment i) (Negation i) (All i) (Network i) (IP i) (Hostname i) (Regexp i) (Some v) (IPCat i).
Definition setIPCat (v : string) (i : BlacklistRule) : BlacklistRule :=
  mkRule (Comment i) (Negation i) (All i) (Network i) (IP i) (Hostname i) (Regexp i) (Geofence' i) v.

(** Blacklist is a list of BlacklistRules. *)
Record Blacklist := mkBlacklist { List : list BlacklistRule }.

(** Add appends a BlacklistRule to the Blacklist. *)
Definition Add (item : BlacklistRule) : State Blacklist unit :=
  smodify (fun b => mkBlacklist (List b ++ [item])%list).

Definition nonEmpty (s : string) : bool := negb (String.eqb s "").

(** [geofenceRegexp], compiled when the package is initialised. *)
Definition geofenceRegexp : regexp.Regexp :=
  regexp.mkRegexp
    "^([-+]?[0-9]*\.?[0-9]+)[^-+0-9]+([-+]?[0-9]*\.?[0-9]+)(?:[^0-9]+([0-9]*\.?[0-9]+)([A-Za-z]*)[^0-9]*)?$".

(** [geofenceUnits]: metres per unit. *)
Definition geofenceUnits (units : string) : option float :=
  if String.eqb units "" then Some 1%float
  else if String.eqb units "m" then Some 1%float
  else if String.eqb units "km" then Some 1000%float
  else if String.eqb units "mi" then Some 1609%float
  else if String.eqb units "ft" then Some (1609 / 5280)%float
  else None.

Section Blacklist.
Context `{GeoLib} `{Platform}.

(** [BlacklistRule.String] *)
Definition BlacklistRule_String (i : BlacklistRule) : string :=
  let value := "" in
  let value := if Negation i then value ++ "!" else value in
  if All i then value ++ "* # Wildcard"
  else match Network i with
  | Some n => value ++ net.IPNet_String n ++ " # Network"
  | None =>
  match IP i with
  | Some ip => value ++ net.IP_String ip ++ " # IP Address"
  | None =>
  if nonEmpty (Hostname i) then value ++ Hostname i ++ " # Hostname"
  else match Regexp i with
  | Some re => (value ++ "~") ++ regexp.Regexp_String re ++ " # Regular Expression"
  | None =>
  match Geofence' i with
  | Some g =>
      value ++ "@ " ++
        strconv.FormatFloat (Latitude g) ++ ", " ++
        strconv.FormatFloat (Longitude g) ++ " (" ++
        strconv.FormatFloat (Radius g) ++ "m) # Geofence"
  | None =>
      let value := if nonEmpty (IPCat i) then value ++ "ipcat " ++ IPCat i else value in
      let value := if nonEmpty (Comment i) then value ++ "# " ++ Comment i else value in
      value
  end end end end.

(** [Blacklist.String]: a header with the count of items without a
    comment, then one line per item. *)
Definition Blacklist_String (b : Blacklist) : string :=
  let itemCount := length (filter (fun item => negb (nonEmpty (Comment item))) (List b)) in
  let header :=
    match itemCount with
    | 0 => "# Empty blacklist"
    | 1 => "# Blacklist with 1 item"
    | _ => "# Blacklist with " ++ strconv.Itoa itemCount ++ " items"
    end in
  strings.Join (header :: map BlacklistRule_String (List b)) (String "010"%char "").

(** The ["@"] case of the switch in [ParseBlacklist]. *)
Definition parseGeofence (item : BlacklistRule) (line : string) : Outcome BlacklistRule :=
  rest <- sliceFrom line 1 ;;
  let line := strings.TrimSpace rest in
  let matches := regexp.FindStringSubmatch geofenceRegexp line in
  if Nat.eqb (length matches) 5 then
    let latString := nth 1 matches "" in
    let lngString := nth 2 matches "" in
    let radiusString := nth 3 matches "" in
    let units := strings.ToLower (nth 4 matches "") in
    let '(lat, err) := strconv.ParseFloat latString in
    match err with
    | Some e => Returns (setComment ("Error: " ++ line ++ ": could not parse latitude: " ++ e) item)
    | None =>
    let '(lng, err) := strconv.ParseFloat lngString in
    match err with
    | Some e => Returns (setComment ("Error: " ++ line ++ ": could not parse longitude: " ++ e) item)
    | None =>
    let '(radius, err) :=
      if nonEmpty radiusString then strconv.ParseFloat radiusString else (25%float, None) in
    match err with
    | Some e => Returns (setComment ("Error: " ++ line ++ ": could not parse radius: " ++ e) item)
    | None =>
    match geofenceUnits units with
    | None =>
        Returns (setComment ("Error: " ++ line ++ ": invalid radial units: " ++ strconv.Quote units) item)
    | Some factor =>
        Returns (setGeofence (mkGeofence lat lng (radius * factor)%float) item)
    end end end end
  else
    Returns (setComment
               ("Error: " ++ line ++ ": invalid format: must be <lng>, <lng> (<radius><unit>)?") item).

(** The ["~"] case of the switch in [ParseBlacklist]. *)
Definition parseRegexp (item : BlacklistRule) (line : string) : Outcome BlacklistRule :=
  rest <- sliceFrom line 1 ;;
  let line := strings.TrimSpace rest in
  match regexp.Compile line with
  | inr err =>
      Returns (setComment ("Error: " ++ line ++ ": malformed regular expression: " ++ err) item)
  | inl reg => Returns (setRegexp reg item)
  end.

(** The body of the loop of [ParseBlacklist] once the comment, the blanks
    and the negation mark are taken off the line. *)
Definition parseRule (item : BlacklistRule) (line : string) : Outcome BlacklistRule :=
  (* A line with only "*" matches everything. *)
  if String.eqb line "*" then Returns (setAll true item)
  else
    (* IPCat database query match *)
    head <- sliceTo line 6 ;;
    if String.eqb head "ipcat " then
      rest <- sliceFrom line 6 ;;
      Returns (setIPCat (strings.TrimSpace rest) item)
    else
      c <- byteAt line 0 ;;
      if Ascii.eqb c "@" then parseGeofence item line
      else if Ascii.eqb c "~" then parseRegexp item line
      else
        (* If a CIDR notation is given, then parse that as an IP network. *)
        match net.ParseCIDR line with
        | inl (_, network) => Returns (setNetwork network item)
        | inr _ =>
            (* If an IP address is given, parse as unique IP. *)
            match net.ParseIP line with
            | Some ip => Returns (setIP ip item)
            | None =>
                (* Otherwise, treat the pattern as a hostname. *)
                Returns (setHostname (strings.ToLower line) item)
            end
        end.

(** The body of the loop of [ParseBlacklist]: the rule a line adds,
    [None] for a line that adds none. *)
Definition parseLine (line : string) : Outcome (option BlacklistRule) :=
  (* A line with # serves as a comment. *)
  let commentStart := strings.IndexByte line "#" in
  line <- (if (0 <=? commentStart)%Z then sliceTo line (Z.to_nat commentStart) else Returns line) ;;
  (* A blank line matches no files. *)
  let line := strings.TrimSpace line in
  if String.eqb line "" then Returns None
  else
    let item := zeroRule in
    (* An optional prefix "!" which negates the pattern. *)
    c <- byteAt line 0 ;;
    negated <- (if Ascii.eqb c "!"
                then rest <- sliceFrom line 1 ;;
                     Returns (setNegation true item, strings.TrimSpace rest)
                else Returns (item, line)) ;;
    let '(item, line) := negated in
    r <- parseRule item line ;;
    Returns (Some r).

Fixpoint parseLines (lines : list string) (blacklist : Blacklist) : Outcome Blacklist :=
  match lines with
  | [] => Returns blacklist
  | line :: rest =>
      r <- parseLine line ;;
      match r with
      | None => parseLines rest blacklist
      | Some item => parseLines rest (snd (Add item blacklist))
      end
  end.

(** ParseBlacklist parses a text blacklist and returns a Blacklist object. *)
Definition ParseBlacklist (text : string) : Outcome Blacklist :=
  let lines := strings.Split text "010"%char in
  parseLines lines (mkBlacklist []).
End Blacklist.

(** What one pass through the body of the loop of [Allow] does: leave the
    function with a result, or reach the end of the body with [match] and
    the (possibly filled) caches [user] and [category]. *)
Inductive Step : Type :=
| Return (result : bool)
| Next (matched : bool) (user : option Geofence) (category : option ipcat.Interval).

(** [float64(n)] for a [uint16]. *)
Definition float64OfUint16 (n : N) : float :=
  PrimFloat.of_uint63 (Uint63.of_Z (Z.of_N (n mod 65536))).

Section Allow.
Context `{GeoLib} `{Platform}.

(** The position of the requester as a geofence, from a city record. *)
Definition userGeofence (record : geoip2.City) : Geofence :=
  mkGeofence
    (geoip2.Latitude (geoip2.Location record))
    (geoip2.Longitude (geoip2.Location record))
    (float64OfUint16 (geoip2.AccuracyRadius (geoip2.Location record)) * 1000)%float.

(** The [item.Hostname != ""] branch. *)
Definition matchHostname (item : BlacklistRule) (ip : net.IP) : bool :=
  let matched := false in
  let '(addrs, err) := net.LookupIP (Hostname item) in
  let matched :=
    match err with
    | Some _ => if existsb (fun addr => net.Equal addr ip) addrs then true else matched
    | None => matched
    end in
  let '(names, err) := net.LookupAddr (net.IP_String ip) in
  let matched :=
    match err with
    | Some _ =>
        if existsb (fun name => String.eqb (strings.ToLower name) (Hostname item)) names
        then true else matched
    | None => matched
    end in
  matched.

(** The [item.Regexp != nil] branch. *)
Definition matchRegexp (re : regexp.Regexp) (ip : net.IP) : bool :=
  let '(names, err) := net.LookupAddr (net.IP_String ip) in
  match err with
  | Some _ => existsb (fun name => regexp.Match re (strings.ToLower name)) names
  | None => false
  end.

(** The [item.Geofence != nil] branch. *)
Definition stepGeofence (ctx : BlacklistContext) (ip : net.IP) (item : BlacklistRule)
    (bounds : Geofence) (user : option Geofence) (category : option ipcat.Interval) : Step :=
  match GeoDB ctx with
  | None => Return false
  | Some db =>
      let located :=
        match user with
        | Some u => inl u
        | None =>
            match geoip2.Reader_City db ip with
            | inr err => inr err
            | inl record => inl (userGeofence record)
            end
        end in
      match located with
      | inr _ => Return false
      | inl u =>
          let boundsIntersect := Intersection bounds u in
          let matched :=
            if Negation item
            then (* Whitelist if user is completely contained within bounds *)
              hasFlag boundsIntersect IsSuperset
            else (* Blacklist if user intersects at all with bounds *)
              negb (hasFlag boundsIntersect IsDisjoint) in
          Next matched (Some u) category
      end
  end.

(** The [item.IPCat != ""] branch: every path through it leaves [Allow]. *)
Definition stepIPCat (ctx : BlacklistContext) (ip : net.IP) (item : BlacklistRule)
    (user : option Geofence) (category : option ipcat.Interval) : Step :=
  match IPSet ctx with
  | None => Return false
  | Some ipset =>
      let classified :=
        match category with
        | Some c => inl (Some c)
        | None =>
            match net.To4 ip with
            | Some ipv4 =>
                let dots := net.IP_String ipv4 in
                let '(interval, err) := ipcat.Contains ipset dots in
                match err with
                | Some e => inr e
                | None => inl interval
                end
            | None => inl None
            end
        end in
      match classified with
      | inr _ => Return false
      | inl category =>
          match category with
          | Some c =>
              let name := strings.ToLower (ipcat.Name c) in
              let search :=
                strings.Replace (regexp.QuoteMeta (strings.ToLower (IPCat item))) "\*" ".*" in
              let '(matched, err) := regexp.MatchString search name in
              match err with
              | Some _ => Return false
              | None => Return false
              end
          | None => Return false
          end
      end
  end.

(** The chain of tests on one item. *)
Definition step (ctx : BlacklistContext) (ip : net.IP) (item : BlacklistRule)
    (user : option Geofence) (category : option ipcat.Interval) : Step :=
  if All item then Next true user category
  else match Network item with
  | Some n => Next (net.Contains n ip) user category
  | None =>
  match IP item with
  | Some x => Next (net.Equal x ip) user category
  | None =>
  if nonEmpty (Hostname item) then Next (matchHostname item ip) user category
  else match Regexp item with
  | Some re => Next (matchRegexp re ip) user category
  | None =>
  match Geofence' item with
  | Some bounds => stepGeofence ctx ip item bounds user category
  | None =>
  if nonEmpty (IPCat item) then stepIPCat ctx ip item user category
  else Next false user category
  end end end end.

(** The loop of [Allow] over the remaining items. *)
Fixpoint allowLoop (ctx : BlacklistContext) (ip : net.IP) (items : list BlacklistRule)
    (allow : bool) (user : option Geofence) (category : option ipcat.Interval) : bool :=
  match items with
  | [] => allow
  | item :: rest =>
      match step ctx ip item user category with
      | Return result => result
      | Next matched user category =>
          allowLoop ctx ip rest (if matched then Negation item else allow) user category
      end
  end.

(** Allow decides whether the Blacklist permits the selected IP address. *)
Definition Allow (ctx : BlacklistContext) (ip : net.IP) : State Blacklist bool :=
  b <~ sget ;;
  sret (allowLoop ctx ip (List b) true None None).
End Allow.

(** ** Vocabulary for the properties of [Allow] *)

(** A rule whose only populated field is the geofence: the test of
    [item.Geofence] in [Allow] is reached for exactly these. *)
Definition isGeofenceRule (item : BlacklistRule) : bool :=
  (negb (All item)
   && match Network item with None => true | Some _ => false end
   && match IP item with None => true | Some _ => false end
   && negb (nonEmpty (Hostname item))
   && match Regexp item with None => true | Some _ => false end
   && match Geofence' item with None => false | Some _ => true end)%bool.

(** The result [Allow] gives once the rules are exhausted, from the last
    rule that matched, if any: [allow = item.Negation], and [true] when
    no rule matched. *)
Definition verdict (last : option BlacklistRule) : bool :=
  match last with
  | Some item => Negation item
  | None => true
  end.

Section AllowVocabulary.
Context `{GeoLib} `{Platform}.

(** Whether [item] matches the requester, taken on its own. *)
Definition matches (ctx : BlacklistContext) (ip : net.IP) (item : BlacklistRule) : bool :=
  match step ctx ip item None None with
  | Next matched _ _ => matched
  | Return _ => false
  end.

(** Whether [item] makes [Allow] return on the spot. *)
Definition stops (ctx : BlacklistContext) (ip : net.IP) (item : BlacklistRule) : bool :=
  match step ctx ip item None None with
  | Next _ _ _ => false
  | Return _ => true
  end.

(** The last matching rule of [items], or [last] when none matches. *)
Fixpoint lastMatching (ctx : BlacklistContext) (ip : net.IP) (items : list BlacklistRule)
    (last : option BlacklistRule) : option BlacklistRule :=
  match items with
  | [] => last
  | item :: rest => lastMatching ctx ip rest (if matches ctx ip item then Some item else last)
  end.

(** The cache [user] of [Allow] is empty or holds the position that the
    database gives for [ip]. *)
Definition userCached (ctx : BlacklistContext) (ip : net.IP) (user : option Geofence) : Prop :=
  user = None \/
  exists db record,
    GeoDB ctx = Some db /\ geoip2.Reader_City db ip = inl record /\ user = Some (userGeofence record).
End AllowVocabulary.

(** ** The access path of the shot handler *)

(** Go's [int] is 64 bits wide here; [x++] wraps around. *)
Definition wrapInt (x : Z) : Z := ((x + 2 ^ 63) mod 2 ^ 64 - 2 ^ 63)%Z.

Definition incr (x : Z) : Z := wrapInt (x + 1).

(** Modelled from the spec: the resource, [ZerodropEntry], whose
    declaration is not among the sources.  The handler reads its training
    flag and its blacklist and counts granted and denied accesses on it. *)
Record ZerodropEntry := mkEntry {
  Name : string;
  AccessTrain : bool;
  AccessBlacklist : Blacklist;
  AccessBlacklistCount : Z;
  AccessCount : Z
}.

Definition setAccessBlacklist (v : Blacklist) (e : ZerodropEntry) : ZerodropEntry :=
  mkEntry (Name e) (AccessTrain e) v (AccessBlacklistCount e) (AccessCount e).
Definition setAccessBlacklistCount (v : Z) (e : ZerodropEntry) : ZerodropEntry :=
  mkEntry (Name e) (AccessTrain e) (AccessBlacklist e) v (AccessCount e).
Definition setAccessCount (v : Z) (e : ZerodropEntry) : ZerodropEntry :=
  mkEntry (Name e) (AccessTrain e) (AccessBlacklist e) (AccessBlacklistCount e) v.

(** Modelled from the spec: the resource store.  [Get] looks a resource
    up by name, [IsExpired] is the expiration policy, and [Update] is the
    single commit operation, which may report an error. *)
Class EntryStore := {
  storeGet : string -> option ZerodropEntry;
  storeIsExpired : ZerodropEntry -> bool;
  storeUpdateError : ZerodropEntry -> option error
}.

(** The handler's local variable [entry] and the entries it has handed to
    [Update] so far, oldest first. *)
Record Frame := mkFrame { entry : ZerodropEntry; committed : list ZerodropEntry }.

(** A method called on [entry.AccessBlacklist]. *)
Definition onBlacklist {A} (m : State Blacklist A) : State Frame A :=
  fun fr =>
    let (a, b) := m (AccessBlacklist (entry fr)) in
    (a, mkFrame (setAccessBlacklist b (entry fr)) (committed fr)).

Definition onEntry (f : ZerodropEntry -> ZerodropEntry) : State Frame unit :=
  smodify (fun fr => mkFrame (f (entry fr)) (committed fr)).

Section Access.
Context `{GeoLib} `{Platform} `{EntryStore}.

(** [entry.Update()] *)
Definition Update : State Frame (option error) :=
  fun fr => (storeUpdateError (entry fr), mkFrame (entry fr) (committed fr ++ [entry fr])%list).

(** [entry.IsExpired()] *)
Definition IsExpired : State Frame bool := fun fr => (storeIsExpired (entry fr), fr).

(** The part of [Access] that follows the lookup of the entry; the
    result tells whether the entry is returned. *)
Definition accessEntry (ctx : BlacklistContext) (ip : net.IP) (date : string) : State Frame bool :=
  fr <~ sget ;;
  if AccessTrain (entry fr) then
    onBlacklist (Add (setComment ("Automatically added by training on " ++ date) zeroRule)) ;;;
    (* We need to add the ip to the blacklist *)
    onBlacklist (Add (setIP ip zeroRule)) ;;;
    (* We will also add the Geofence *)
    match GeoDB ctx with
    | Some db =>
        match geoip2.Reader_City db ip with
        | inl record => onBlacklist (Add (setGeofence (userGeofence record) zeroRule))
        | inr _ => sret tt
        end
    | None => sret tt
    end ;;;
    err <~ Update ;;
    match err with
    | Some _ => sret false
    | None => sret false
    end
  else
    expired <~ IsExpired ;;
    if expired : bool then
      onEntry (fun e => setAccessBlacklistCount (incr (AccessBlacklistCount e)) e) ;;;
      Update ;;;
      sret false
    else
      allowed <~ onBlacklist (Allow ctx ip) ;;
      if negb allowed then
        onEntry (fun e => setAccessBlacklistCount (incr (AccessBlacklistCount e)) e) ;;;
        Update ;;;
        sret false
      else
        onEntry (fun e => setAccessCount (incr (AccessCount e)) e) ;;;
        Update ;;;
        sret true.

(** Access returns the ZerodropEntry with the specified name as long as
    access is permitted, and nil otherwise; with it, the entries it
    committed.  [addr] is the remote address of the request and [date]
    the formatted current time. *)
Definition Access (ctx : BlacklistContext) (name addr date : string)
    : option ZerodropEntry * list ZerodropEntry :=
  match splitHostPort addr with
  | inr _ => (None, [])
  | inl (host, _) =>
      match net.ParseIP host with
      | None => (None, [])
      | Some ip =>
          match storeGet name with
          | None => (None, [])
          | Some e =>
              let (granted, fr) := accessEntry ctx ip date (mkFrame e []) in
              (if granted then Some (entry fr) else None, committed fr)
          end
      end
  end.
End Access.

(** ** A platform for examples: no DNS, no IPv6, ASCII text only *)

Definition offline : Platform := {|
  mapToLower := fun s => s;
  trimFuncIsSpace := fun s => s;
  trimRightFuncIsSpace := fun s => s;
  parseIPv6 := fun _ => None;
  ipv6String := fun _ => "?";
  ipNetString := fun _ _ => "<nil>";
  lookupIP := fun _ => ([], Some "no such host");
  lookupAddr := fun _ => ([], Some "no such host");
  splitHostPort := fun addr => inr ("missing port in address " ++ addr);
  compileError := fun _ => None;
  matchExpr := fun _ _ => false;
  findStringSubmatch := fun _ _ => [];
  parseFloat64 := fun s => (0%float, Some ("parsing " ++ s ++ ": invalid syntax"));
  formatFloat := fun _ => "0";
  quote := fun s => s
|}.

(** A distance function for examples: every two points coincide. *)
Definition flat : GeoLib := {| GreatCircleDistance := fun _ _ => 0%float |}.

(** A platform whose resolver answers every query without error: every
    host has the address 93.184.216.34 and every address the name
    [example.com.] *)
Definition resolving : Platform := {|
  mapToLower := fun s => s;
  trimFuncIsSpace := fun s => s;
  trimRightFuncIsSpace := fun s => s;
  parseIPv6 := fun _ => None;
  ipv6String := fun _ => "?";
  ipNetString := fun _ _ => "<nil>";
  lookupIP := fun _ => ([net.IPv4 93 184 216 34], None);
  lookupAddr := fun _ => (["example.com."], None);
  splitHostPort := fun addr => inr ("missing port in address " ++ addr);
  compileError := fun _ => None;
  matchExpr := fun _ _ => false;
  findStringSubmatch := fun _ _ => [];
  parseFloat64 := fun s => (0%float, Some ("parsing " ++ s ++ ": invalid syntax"));
  formatFloat := fun _ => "0";
  quote := fun s => s
|}.

(** A context without databases, and an ipcat database without intervals. *)
Definition noDatabases : BlacklistContext := mkContext None None.

Definition emptyIPSet : ipcat.IntervalSet := {| ipcat.Contains := fun _ => (None, None) |}.

(** The line feed that separates the lines of a blacklist. *)
Definition LF : string := String "010"%char "".

(** The rules that the lines [!*] and [10.0.0.0/8] stand for. *)
Definition allowAll : BlacklistRule := setAll true (setNegation true zeroRule).

Definition network10 : BlacklistRule :=
  setNetwork (net.mkIPNet [10; 0; 0; 0]%N [255; 0; 0; 0]%N) zeroRule.

(** ** Vocabulary for further properties *)

(** The number of populated discriminants of a rule, in the order in
    which [Allow] and [String] test them. *)
Definition populated (item : BlacklistRule) : nat :=
  (if All item then 1 else 0)
  + match Network item with Some _ => 1 | None => 0 end
  + match IP item with Some _ => 1 | None => 0 end
  + (if nonEmpty (Hostname item) then 1 else 0)
  + match Regexp item with Some _ => 1 | None => 0 end
  + match Geofence' item with Some _ => 1 | None => 0 end
  + (if nonEmpty (IPCat item) then 1 else 0).

(** A rule without discriminant: a comment or a parse error. *)
Definition isInert (item : BlacklistRule) : bool := Nat.eqb (populated item) 0.

(** A rule that [Allow] takes through its hostname or its regular
    expression branch. *)
Definition isNameRule (item : BlacklistRule) : bool :=
  (negb (All item)
   && match Network item with None => true | Some _ => false end
   && match IP item with None => true | Some _ => false end
   && (nonEmpty (Hostname item) || match Regexp item with Some _ => true | None => false end))%bool.

(** A rule that [Allow] takes through its ipcat branch. *)
Definition isIPCatRule (item : BlacklistRule) : bool :=
  (negb (All item)
   && match Network item with None => true | Some _ => false end
   && match IP item with None => true | Some _ => false end
   && negb (nonEmpty (Hostname item))
   && match Regexp item with None => true | Some _ => false end
   && match Geofence' item with None => true | Some _ => false end
   && nonEmpty (IPCat item))%bool.

(** ** Vocabulary for the properties of the parser *)

Definition panics {A} (o : Outcome A) : bool :=
  match o with
  | Panics _ => true
  | Returns _ => false
  end.

Fixpoint hasByte (s : string) (c : ascii) : bool :=
  match s with
  | EmptyString => false
  | String a r => (Ascii.eqb a c || hasByte r c)%bool
  end.

(** Text that [strings.TrimSpace] leaves as it is on every platform:
    ASCII bytes only, no space at either end. *)
Definition allASCII (s : string) : bool := forallb strings.isASCII (list_ascii_of_string s).

Definition firstOK (s : string) : bool :=
  match list_ascii_of_string s with
  | c :: _ => negb (strings.asciiSpace c)
  | [] => true
  end.

Definition lastOK (s : string) : bool :=
  match rev (list_ascii_of_string s) with
  | c :: _ => negb (strings.asciiSpace c)
  | [] => true
  end.

Definition trimmed (s : string) : bool := (allASCII s && firstOK s && lastOK s)%bool.

(** Rule text that survives rendering and parsing: trimmed, without ['#']. *)
Definition plainText (s : string) : bool := (trimmed s && negb (hasByte s "#"))%bool.

(** A host name that the parser reads as such when the standard library
    takes it neither for a network nor for an address: plain text of six
    bytes at least that no other kind of rule claims by its first bytes. *)
Definition plainHostname (h : string) : bool :=
  (plainText h
   && Nat.leb 6 (String.length h)
   && negb (String.prefix "ipcat " h)
   && match h with
      | String c _ => negb (Ascii.eqb c "!") && negb (Ascii.eqb c "@") && negb (Ascii.eqb c "~")
      | EmptyString => false
      end)%bool.

(** Every rule has at most one discriminant, and none beside a comment. *)
Definition wellTagged (item : BlacklistRule) : bool :=
  (Nat.leb (populated item) 1
   && (negb (nonEmpty (Comment item)) || Nat.eqb (populated item) 0))%bool.

Section ParserVocabulary.
Context `{Platform}.

(** The line up to its first ['#']. *)
Definition stripComment (line : string) : string :=
  let commentStart := strings.IndexByte line "#" in
  if (0 <=? commentStart)%Z then substring 0 (Z.to_nat commentStart) line else line.

(** What [ParseBlacklist] hands over to the tests on the kind of rule:
    whether the line is negated, and its text; [None] for a blank line. *)
Definition ruleText (line : string) : option (bool * string) :=
  match strings.TrimSpace (stripComment line) with
  | EmptyString => None
  | String c rest =>
      if Ascii.eqb c "!" then Some (true, strings.TrimSpace rest)
      else Some (false, String c rest)
  end.

(** A line whose rule text is shorter than six bytes and is not [*]. *)
Definition shortRuleLine (line : string) : bool :=
  match ruleText line with
  | None => false
  | Some (_, text) => (Nat.ltb (String.length text) 6 && negb (String.eqb text "*"))%bool
  end.
End ParserVocabulary.

(** A platform on which every request comes from 8.8.8.8, port 53. *)
Definition fromResolver : Platform := {|
  mapToLower := fun s => s;
  trimFuncIsSpace := fun s => s;
  trimRightFuncIsSpace := fun s => s;
  parseIPv6 := fun _ => None;
  ipv6String := fun _ => "?";
  ipNetString := fun _ _ => "<nil>";
  lookupIP := fun _ => ([], Some "no such host");
  lookupAddr := fun _ => ([], Some "no such host");
  splitHostPort := fun _ => inl ("8.8.8.8", "53");
  compileError := fun _ => None;
  matchExpr := fun _ _ => false;
  findStringSubmatch := fun _ _ => [];
  parseFloat64 := fun s => (0%float, Some ("parsing " ++ s ++ ": invalid syntax"));
  formatFloat := fun _ => "0";
  quote := fun s => s
|}.

(** A store with one entry under every name: not in training, never
    expired, with the blacklist [!*], [10.0.0.0/8] and counters 4 and 7. *)
Definition sampleEntry : ZerodropEntry :=
  mkEntry "sample" false (mkBlacklist [allowAll; network10]) 4 7.

Definition sampleStore : EntryStore := {|
  storeGet := fun _ => Some sampleEntry;
  storeIsExpired := fun _ => false;
  storeUpdateError := fun _ => None
|}.

(** A distance function that is undefined everywhere, and a geolocation
    database that puts every address at 48 N, 2 E within 1 km. *)
Definition undefinedDistance : GeoLib := {| GreatCircleDistance := fun _ _ => PrimFloat.nan |}.

Definition sampleCity : geoip2.City :=
  {| geoip2.Location :=
       {| geoip2.AccuracyRadius := 1; geoip2.Latitude := 48; geoip2.Longitude := 2 |} |}.

Definition sampleGeoDB : geoip2.Reader := {| geoip2.Reader_City := fun _ => inl sampleCity |}.

Definition failingGeoDB : geoip2.Reader :=
  {| geoip2.Reader_City := fun _ => inr "address not found" |}.

(** A distance function in which rounding shows: the two binary64 values
    that the haversine formula of golang-geo yields between the points
    (1, 2) and (3, 4), from the lower latitude to the higher and back.
    They differ in the last bit. *)
Definition lopsided : GeoLib := {|
  GreatCircleDistance := fun p q =>
    if PrimFloat.ltb (lat p) (lat q) then 0x1.3a6727cc5c5bdp+8%float
    else 0x1.3a6727cc5c5bcp+8%float
|}.

(** A platform whose resolver answers every query without error, except
    that it knows no host with an empty name, as resolvers do. *)
Definition resolvingNamed : Platform := {|
  mapToLower := fun s => s;
  trimFuncIsSpace := fun s => s;
  trimRightFuncIsSpace := fun s => s;
  parseIPv6 := fun _ => None;
  ipv6String := fun _ => "?";
  ipNetString := fun _ _ => "<nil>";
  lookupIP := fun host =>
    if String.eqb host "" then ([], Some "lookup : no such host")
    else ([net.IPv4 93 184 216 34], None);
  lookupAddr := fun _ => (["example.com."], None);
  splitHostPort := fun addr => inr ("missing port in address " ++ addr);
  compileError := fun _ => None;
  matchExpr := fun _ _ => true;
  findStringSubmatch := fun _ _ => [];
  parseFloat64 := fun s => (0%float, Some ("parsing " ++ s ++ ": invalid syntax"));
  formatFloat := fun _ => "0";
  quote := fun s => s
|}.

(** ** Properties of the geofence intersection *)

(** Addition of binary64 numbers commutes in the IEEE specification. *)
Lemma SF64add_comm (x y : SpecFloat.spec_float) : SF64add x y = SF64add y x.
Proof.
  unfold SF64add, SpecFloat.SFadd.
  destruct x as [sx|sx| |sx mx ex], y as [sy|sy| |sy my ey];
    try reflexivity;
    try (destruct sx, sy; reflexivity).
  rewrite (Z.min_comm ex ey).
  f_equal. apply Z.add_comm.
Qed.

Lemma fgt_add_comm (x y d : float) : fgt (x + y) d = fgt (y + x) d.
Proof.
  unfold fgt. rewrite !ltb_spec, !add_spec, (SF64add_comm (Prim2SF x)). reflexivity.
Qed.

Section GeoProperties.
Context `{GeoLib}.

(** What [Intersection] computes, flag by flag. *)
Lemma Intersection_flags (a b : Geofence) :
  hasFlag (Intersection a b) IsDisjoint = fgt (Radius a + Radius b) (metres a b) /\
  hasFlag (Intersection a b) IsSuperset =
    (negb (fgt (Radius a + Radius b) (metres a b)) && fgt (Radius a - Radius b) (metres a b))%bool /\
  hasFlag (Intersection a b) IsSubset =
    (negb (fgt (Radius a + Radius b) (metres a b)) && fgt (Radius b - Radius a) (metres a b))%bool.
Proof.
  unfold Intersection, metres.
  destruct (fgt (Radius a + Radius b) _);
    destruct (fgt (Radius a - Radius b) _);
    destruct (fgt (Radius b - Radius a) _);
    repeat split; reflexivity.
Qed.

(** C9: when [Intersection] sets [IsDisjoint], the result is exactly
    [IsDisjoint]: neither [IsSubset] nor [IsSuperset] is set with it. *)
Theorem Intersection_disjoint_excludes_others (a b : Geofence) :
  hasFlag (Intersection a b) IsDisjoint = true ->
  Intersection a b = IsDisjoint /\
  hasFlag (Intersection a b) IsSubset = false /\
  hasFlag (Intersection a b) IsSuperset = false.
Proof.
  unfold Intersection.
  destruct (fgt (Radius a + Radius b) _).
  - intros _. repeat split; reflexivity.
  - destruct (fgt (Radius a - Radius b) _), (fgt (Radius b - Radius a) _);
      intros Hd; vm_compute in Hd; discriminate Hd.
Qed.

(** C8, as amended: for every pair of geofences for which the library's
    distance between the two centres is the same in both directions,
    [Intersection a b] and [Intersection b a] agree on [IsDisjoint], and
    the one has [IsSubset] exactly when the other has [IsSuperset]. *)
Theorem Intersection_swap (a b : Geofence) :
  GreatCircleDistance (NewPoint (Latitude a) (Longitude a)) (NewPoint (Latitude b) (Longitude b)) =
  GreatCircleDistance (NewPoint (Latitude b) (Longitude b)) (NewPoint (Latitude a) (Longitude a)) ->
  hasFlag (Intersection a b) IsDisjoint = hasFlag (Intersection b a) IsDisjoint /\
  hasFlag (Intersection a b) IsSubset = hasFlag (Intersection b a) IsSuperset /\
  hasFlag (Intersection a b) IsSuperset = hasFlag (Intersection b a) IsSubset.
Proof.
  intros Hsym.
  destruct (Intersection_flags a b) as (Hd & Hsup & Hsub).
  destruct (Intersection_flags b a) as (Hd' & Hsup' & Hsub').
  assert (Hm : metres b a = metres a b) by (unfold metres; rewrite Hsym; reflexivity).
  rewrite Hm, (fgt_add_comm (Radius b) (Radius a)) in Hd', Hsup', Hsub'.
  rewrite Hd, Hd', Hsup, Hsup', Hsub, Hsub'.
  repeat split; reflexivity.
Qed.

(** C2: two coincident geofences of radius 25 m, at distance 0, are
    reported as [IsDisjoint], although 0 >= 25 + 25 does not hold: the
    test of [Intersection] is [radius(a) + radius(b) > d]. *)
Theorem Intersection_coincident_reported_disjoint :
  GreatCircleDistance (NewPoint 0 0) (NewPoint 0 0) = 0%float ->
  Intersection (mkGeofence 0 0 25) (mkGeofence 0 0 25) = IsDisjoint /\
  PrimFloat.leb (25 + 25) (0 * 1000) = false.
Proof.
  intros H0. unfold Intersection. simpl. rewrite H0. split; reflexivity.
Qed.
End GeoProperties.

(** ** Properties of [Allow] *)

Section AllowProperties.
Context `{GeoLib} `{Platform}.

(** Splits the goal on the next value that a [match] or [if] inspects. *)
Ltac split_match :=
  match goal with
  | |- context [match ?x with _ => _ end] => destruct x eqn:?
  | |- context [if ?x then _ else _] => destruct x eqn:?
  end.

(** Every path through the ipcat branch returns [false] from [Allow]. *)
Lemma stepIPCat_returns ctx ip item user category :
  stepIPCat ctx ip item user category = Return false.
Proof.
  unfold stepIPCat. repeat split_match; reflexivity.
Qed.

(** [Allow] returns from inside the loop only with [false]. *)
Lemma step_Return_false ctx ip item user category result :
  step ctx ip item user category = Return result -> result = false.
Proof.
  unfold step, stepGeofence.
  repeat split_match; try discriminate; try (intros [= <-]; reflexivity).
  rewrite stepIPCat_returns. intros [= <-]. reflexivity.
Qed.

(** A geofence rule met without a geolocation database ends [Allow]. *)
Lemma step_geofence_no_database ctx ip item user category :
  GeoDB ctx = None -> isGeofenceRule item = true ->
  step ctx ip item user category = Return false.
Proof.
  intros Hdb Hg. unfold isGeofenceRule in Hg. unfold step, stepGeofence.
  destruct (All item); [discriminate|].
  destruct (Network item); [discriminate|].
  destruct (IP item); [discriminate|].
  destruct (nonEmpty (Hostname item)); [discriminate|].
  destruct (Regexp item); [discriminate|].
  destruct (Geofence' item); [|discriminate].
  rewrite Hdb. reflexivity.
Qed.

Lemma allowLoop_geofence_no_database ctx ip items :
  GeoDB ctx = None -> existsb isGeofenceRule items = true ->
  forall allow user category, allowLoop ctx ip items allow user category = false.
Proof.
  intros Hdb. induction items as [|item rest IH]; simpl; intros Hex allow user category.
  - discriminate.
  - destruct (step ctx ip item user category) as [result|matched user' category'] eqn:Hstep.
    + eapply step_Return_false; eassumption.
    + destruct (isGeofenceRule item) eqn:Hg.
      * rewrite (step_geofence_no_database _ _ _ _ _ Hdb Hg) in Hstep. discriminate.
      * apply IH. exact Hex.
Qed.

(** C6: with no geolocation database in the context, [Allow] denies as
    soon as the blacklist holds a geofence rule, whatever the other
    rules, the address and the negation flags. *)
Theorem Allow_geofence_without_database (ipset : option ipcat.IntervalSet)
    (ip : net.IP) (b : Blacklist) :
  existsb isGeofenceRule (List b) = true ->
  fst (Allow (mkContext None ipset) ip b) = false.
Proof.
  intros Hex. unfold Allow, sbind, sget, sret. simpl.
  apply allowLoop_geofence_no_database; [reflexivity | exact Hex].
Qed.

(** C1: the rule set parsed from the line [ipcat tor*] denies every
    address, also when the ipcat database has no category for it, and so
    does every rule set that starts with this rule: the ipcat branch
    returns [false] instead of going on to the next rule. *)
Theorem Allow_ipcat_rule_denies (geodb : option geoip2.Reader) (ip : net.IP) :
  ParseBlacklist "ipcat tor*" = Returns (mkBlacklist [setIPCat "tor*" zeroRule]) /\
  forall rest : list BlacklistRule,
    fst (Allow (mkContext geodb (Some emptyIPSet)) ip
           (mkBlacklist (setIPCat "tor*" zeroRule :: rest))) = false.
Proof.
  split; [reflexivity|].
  intros rest. unfold Allow, sbind, sget, sret. simpl.
  unfold step. simpl. rewrite stepIPCat_returns. reflexivity.
Qed.

Lemma Equal_refl (ip : net.IP) : net.Equal ip ip = true.
Proof.
  unfold net.Equal. rewrite Nat.eqb_refl.
  induction ip as [|x r IH]; simpl; [reflexivity|].
  rewrite N.eqb_refl. exact IH.
Qed.

(** When both lookups succeed, the hostname branch finds no match. *)
Lemma matchHostname_resolved item ip :
  snd (lookupIP (Hostname item)) = None ->
  snd (lookupAddr (net.IP_String ip)) = None ->
  matchHostname item ip = false.
Proof.
  unfold matchHostname, net.LookupIP, net.LookupAddr.
  destruct (lookupIP (Hostname item)) as [addrs e1].
  destruct (lookupAddr (net.IP_String ip)) as [names e2].
  simpl. intros -> ->. reflexivity.
Qed.

(** C3: the rule set parsed from the line [example.com] allows an address
    that the forward resolution of [example.com] contains, when the
    lookups succeed: the hostname branch reads the answers only when the
    lookup reports an error. *)
Theorem Allow_hostname_resolved_allows (ctx : BlacklistContext) (ip : net.IP) :
  lookupIP "example.com" = ([ip], None) ->
  snd (lookupAddr (net.IP_String ip)) = None ->
  ParseBlacklist "example.com" = Returns (mkBlacklist [setHostname "example.com" zeroRule]) /\
  net.Equal ip ip = true /\
  fst (Allow ctx ip (mkBlacklist [setHostname "example.com" zeroRule])) = true.
Proof.
  intros Hfwd Hrev. split; [reflexivity|]. split.
  - apply Equal_refl.
  - unfold Allow, sbind, sget, sret. simpl. unfold step. simpl.
    rewrite matchHostname_resolved; [reflexivity| |exact Hrev].
    simpl. rewrite Hfwd. reflexivity.
Qed.

(** A filled cache changes neither whether a rule matches nor whether it
    lets the loop go on. *)
Lemma step_cached ctx ip item user category matched u c :
  userCached ctx ip user ->
  step ctx ip item None None = Next matched u c ->
  exists user',
    step ctx ip item user category = Next matched user' category /\ userCached ctx ip user'.
Proof.
  intros Hc. unfold step.
  destruct (All item).
  { intros [= <- _ _]. eauto. }
  destruct (Network item).
  { intros [= <- _ _]. eauto. }
  destruct (IP item).
  { intros [= <- _ _]. eauto. }
  destruct (nonEmpty (Hostname item)).
  { intros [= <- _ _]. eauto. }
  destruct (Regexp item).
  { intros [= <- _ _]. eauto. }
  destruct (Geofence' item) as [bounds|].
  { unfold stepGeofence.
    destruct (GeoDB ctx) as [db|] eqn:Hdb; [|discriminate].
    destruct (geoip2.Reader_City db ip) as [record|err] eqn:Hcity; [|discriminate].
    intros [= <- _ _].
    assert (Hfilled : userCached ctx ip (Some (userGeofence record))).
    { right. exists db, record. rewrite Hdb. repeat split; assumption. }
    destruct Hc as [-> | (db' & record' & Hdb' & Hcity' & ->)].
    - eauto.
    - rewrite Hdb in Hdb'. injection Hdb' as <-.
      rewrite Hcity in Hcity'. injection Hcity' as <-. eauto. }
  rewrite !stepIPCat_returns.
  destruct (nonEmpty (IPCat item)); [discriminate|].
  intros [= <- _ _]. eauto.
Qed.

(** As long as no rule returns from inside the loop, the loop ends with
    the verdict of the last matching rule. *)
Lemma allowLoop_lastMatching ctx ip items :
  forallb (fun item => negb (stops ctx ip item)) items = true ->
  forall last user category,
    userCached ctx ip user ->
    allowLoop ctx ip items (verdict last) user category
    = verdict (lastMatching ctx ip items last).
Proof.
  induction items as [|item rest IH]; simpl; intros Hgo last user category Hc.
  - reflexivity.
  - apply andb_prop in Hgo. destruct Hgo as [Hitem Hrest].
    unfold stops in Hitem. unfold matches.
    destruct (step ctx ip item None None) as [r|matched u c] eqn:Hstep; [discriminate|].
    destruct (step_cached _ _ _ _ category _ _ _ Hc Hstep) as (user' & Hstep' & Hc').
    rewrite Hstep'.
    replace (if matched then Negation item else verdict last)
      with (verdict (if matched then Some item else last)) by (destruct matched; reflexivity).
    apply IH; assumption.
Qed.

(** C5, as amended: the rule set parsed from the lines [!*] and
    [10.0.0.0/8] denies 10.1.2.3 and allows 8.8.8.8; and whenever no rule
    makes [Allow] return from inside its loop, the result is the negation
    flag of the last matching rule ([allow = item.Negation]: a match
    without negation denies, a negated match allows), and [true] when no
    rule matches. *)
Theorem Allow_last_match_decides :
  (ParseBlacklist ("!*" ++ LF ++ "10.0.0.0/8") = Returns (mkBlacklist [allowAll; network10]) /\
   net.ParseIP "10.1.2.3" = Some (net.IPv4 10 1 2 3) /\
   net.ParseIP "8.8.8.8" = Some (net.IPv4 8 8 8 8) /\
   forall ctx : BlacklistContext,
     fst (Allow ctx (net.IPv4 10 1 2 3) (mkBlacklist [allowAll; network10])) = false /\
     fst (Allow ctx (net.IPv4 8 8 8 8) (mkBlacklist [allowAll; network10])) = true) /\
  (forall (ctx : BlacklistContext) (ip : net.IP) (b : Blacklist),
     forallb (fun item => negb (stops ctx ip item)) (List b) = true ->
     fst (Allow ctx ip b) = verdict (lastMatching ctx ip (List b) None)).
Proof.
  split.
  - repeat split; reflexivity.
  - intros ctx ip b Hgo. unfold Allow, sbind, sget, sret. simpl.
    apply (allowLoop_lastMatching _ _ _ Hgo None). left. reflexivity.
Qed.
End AllowProperties.

(** ** Properties of the parser *)

Section ParserProperties.
Context `{Platform}.

(** The test for the [ipcat ] prefix slices six bytes off the line, which
    panics on every shorter line but [*]. *)
Lemma parseRule_short_line_panics (item : BlacklistRule) (line : string) :
  String.length line < 6 -> line <> "*" ->
  parseRule item line = Panics "slice bounds out of range".
Proof.
  intros Hlen Hstar. unfold parseRule.
  destruct (String.eqb_spec line "*") as [->|_]; [contradiction|].
  unfold sliceTo.
  destruct (Nat.leb_spec 6 (String.length line)) as [Hge|_]; [lia|reflexivity].
Qed.

(** C4: [ParseBlacklist] panics on the texts [1.2.3] and [@1,2], and on a
    text whose first line is [a.io], whatever follows: a line shorter
    than six bytes is sliced out of range before it is looked at. *)
Theorem ParseBlacklist_short_line_panics :
  ParseBlacklist "1.2.3" = Panics "slice bounds out of range" /\
  ParseBlacklist "@1,2" = Panics "slice bounds out of range" /\
  ParseBlacklist ("a.io" ++ LF ++ "10.0.0.0/8") = Panics "slice bounds out of range".
Proof.
  repeat split; reflexivity.
Qed.

(** C7: the line [~ abcd] parses to a rule for the expression [abcd],
    which is rendered as [~abcd # Regular Expression]; parsing the
    rendered blacklist panics, the rule text being five bytes long. *)
Theorem render_of_regexp_rule_panics :
  compileError "abcd" = None ->
  ParseBlacklist "~ abcd" = Returns (mkBlacklist [setRegexp (regexp.mkRegexp "abcd") zeroRule]) /\
  Blacklist_String (mkBlacklist [setRegexp (regexp.mkRegexp "abcd") zeroRule])
    = "# Blacklist with 1 item" ++ LF ++ "~abcd # Regular Expression" /\
  ParseBlacklist ("# Blacklist with 1 item" ++ LF ++ "~abcd # Regular Expression")
    = Panics "slice bounds out of range".
Proof.
  intros Hc. split; [|split; reflexivity].
  cbv -[compileError]. rewrite Hc. reflexivity.
Qed.
End ParserProperties.

(** ** Properties of the access path *)

Section AccessProperties.
Context `{GeoLib} `{Platform} `{EntryStore}.

(** What the part of [Access] after the lookup does to the blacklist of
    the entry: the training path denies and appends, the other paths
    leave the blacklist alone, in the local entry and in what is committed. *)
Lemma accessEntry_blacklist (ctx : BlacklistContext) (ip : net.IP) (date : string)
    (e : ZerodropEntry) :
  let granted := fst (accessEntry ctx ip date (mkFrame e [])) in
  let fr := snd (accessEntry ctx ip date (mkFrame e [])) in
  if AccessTrain e then
    granted = false /\
    exists located : list BlacklistRule,
      List (AccessBlacklist (entry fr))
      = (List (AccessBlacklist e)
         ++ [setComment ("Automatically added by training on " ++ date) zeroRule;
             setIP ip zeroRule]
         ++ located)%list /\
      length located <= 1 /\
      committed fr = [entry fr]
  else
    AccessBlacklist (entry fr) = AccessBlacklist e /\
    Forall (fun c => AccessBlacklist c = AccessBlacklist e) (committed fr).
Proof.
  unfold accessEntry, sbind, sget, sret. cbn.
  destruct e as [name train [rules] denied granted]. cbn.
  destruct train.
  - destruct (GeoDB ctx) as [db|]; [destruct (geoip2.Reader_City db ip) as [record|err]|]; cbn.
    + destruct (storeUpdateError _); cbn; (split; [reflexivity|]);
        exists [setGeofence (userGeofence record) zeroRule];
        rewrite <- !app_assoc; cbn; repeat split; auto.
    + destruct (storeUpdateError _); cbn; (split; [reflexivity|]);
        exists []; rewrite <- !app_assoc; cbn; repeat split; auto.
    + destruct (storeUpdateError _); cbn; (split; [reflexivity|]);
        exists []; rewrite <- !app_assoc; cbn; repeat split; auto.
  - destruct (storeIsExpired _); cbn.
    + split; [reflexivity|]. repeat constructor.
    + destruct (allowLoop ctx ip rules true None None); cbn;
        (split; [reflexivity|]; repeat constructor).
Qed.

(** C10: [Allow] leaves its blacklist as it found it.  In [Access], a
    request for an entry in training is denied and appends the training
    comment, the address and, when the database locates the address, its
    geofence; any other request leaves the blacklist of the entry it
    returns, and of every entry it commits, as it was read. *)
Theorem Allow_leaves_blacklist :
  (forall (ctx : BlacklistContext) (ip : net.IP) (b : Blacklist), snd (Allow ctx ip b) = b) /\
  (forall (ctx : BlacklistContext) (ip : net.IP) (date : string) (e : ZerodropEntry),
     let fr := snd (accessEntry ctx ip date (mkFrame e [])) in
     if AccessTrain e then
       exists located : list BlacklistRule,
         List (AccessBlacklist (entry fr))
         = (List (AccessBlacklist e)
            ++ [setComment ("Automatically added by training on " ++ date) zeroRule;
                setIP ip zeroRule]
            ++ located)%list /\
         length located <= 1 /\
         committed fr = [entry fr]
     else
       AccessBlacklist (entry fr) = AccessBlacklist e /\
       Forall (fun c => AccessBlacklist c = AccessBlacklist e) (committed fr)) /\
  (forall (ctx : BlacklistContext) (name addr date : string),
     match storeGet name with
     | None => Access ctx name addr date = (None, [])
     | Some e =>
         if AccessTrain e then fst (Access ctx name addr date) = None
         else
           match fst (Access ctx name addr date) with
           | Some granted => AccessBlacklist granted = AccessBlacklist e
           | None => True
           end /\
           Forall (fun c => AccessBlacklist c = AccessBlacklist e)
             (snd (Access ctx name addr date))
     end).
Proof.
  split; [reflexivity|]. split.
  - intros ctx ip date e.
    pose proof (accessEntry_blacklist ctx ip date e) as Hacc. cbn zeta in Hacc.
    destruct (AccessTrain e); [apply Hacc | exact Hacc].
  - intros ctx name addr date. unfold Access.
    destruct (storeGet name) as [e|].
    + destruct (splitHostPort addr) as [[host port]|err];
        [destruct (net.ParseIP host) as [ip|]|].
      * pose proof (accessEntry_blacklist ctx ip date e) as Hacc. cbn zeta in Hacc.
        destruct (accessEntry ctx ip date (mkFrame e [])) as [granted fr].
        cbn in Hacc |- *.
        destruct (AccessTrain e).
        -- destruct Hacc as [-> _]. reflexivity.
        -- destruct Hacc as [Hentry Hcommitted]. split; [|exact Hcommitted].
           destruct granted; [exact Hentry | exact I].
      * destruct (AccessTrain e); [reflexivity|]. split; [exact I | constructor].
      * destruct (AccessTrain e); [reflexivity|]. split; [exact I | constructor].
    + destruct (splitHostPort addr) as [[host port]|err];
        [destruct (net.ParseIP host) as [ip|]|]; reflexivity.
Qed.
End AccessProperties.

(** ** The properties at concrete inputs *)

(** Two coincident geofences of radius 25 m under the [flat] distance. *)
Lemma Intersection_disjoint_excludes_others_witness :
  hasFlag (@Intersection flat (mkGeofence 0 0 25) (mkGeofence 0 0 25)) IsDisjoint = true /\
  (@Intersection flat (mkGeofence 0 0 25) (mkGeofence 0 0 25) = IsDisjoint /\
   hasFlag (@Intersection flat (mkGeofence 0 0 25) (mkGeofence 0 0 25)) IsSubset = false /\
   hasFlag (@Intersection flat (mkGeofence 0 0 25) (mkGeofence 0 0 25)) IsSuperset = false).
Proof.
  split; [reflexivity|].
  apply (@Intersection_disjoint_excludes_others flat). reflexivity.
Defined.

(** Two geofences at the same place with radii -25 and -30: the first
    is reported as superset of the second, the second as subset of the
    first, and neither pair as disjoint. *)
Lemma Intersection_swap_witness :
  @GreatCircleDistance flat (NewPoint 1 2) (NewPoint 1 2)
  = @GreatCircleDistance flat (NewPoint 1 2) (NewPoint 1 2) /\
  (hasFlag (@Intersection flat (mkGeofence 1 2 (-25)) (mkGeofence 1 2 (-30))) IsDisjoint
   = hasFlag (@Intersection flat (mkGeofence 1 2 (-30)) (mkGeofence 1 2 (-25))) IsDisjoint /\
   hasFlag (@Intersection flat (mkGeofence 1 2 (-25)) (mkGeofence 1 2 (-30))) IsSubset
   = hasFlag (@Intersection flat (mkGeofence 1 2 (-30)) (mkGeofence 1 2 (-25))) IsSuperset /\
   hasFlag (@Intersection flat (mkGeofence 1 2 (-25)) (mkGeofence 1 2 (-30))) IsSuperset
   = hasFlag (@Intersection flat (mkGeofence 1 2 (-30)) (mkGeofence 1 2 (-25))) IsSubset) /\
  @Intersection flat (mkGeofence 1 2 (-25)) (mkGeofence 1 2 (-30)) = IsSuperset /\
  @Intersection flat (mkGeofence 1 2 (-30)) (mkGeofence 1 2 (-25)) = IsSubset.
Proof.
  split; [reflexivity|].
  split; [|split; reflexivity].
  apply (@Intersection_swap flat (mkGeofence 1 2 (-25)) (mkGeofence 1 2 (-30))). reflexivity.
Defined.

(** A geofence around (1, 2) whose radius is the distance to (3, 4) in
    metres, and the point (3, 4) with radius 0.  Under the [lopsided]
    distance the pair is reported as not disjoint in this order and as
    disjoint in the other: the [IsDisjoint] bits of the two orders differ. *)
Lemma Intersection_swap_counterexample :
  @Intersection lopsided (mkGeofence 1 2 0x1.3308bcdd9231bp+18) (mkGeofence 3 4 0) = 0%N /\
  @Intersection lopsided (mkGeofence 3 4 0) (mkGeofence 1 2 0x1.3308bcdd9231bp+18) = IsDisjoint /\
  hasFlag (@Intersection lopsided (mkGeofence 1 2 0x1.3308bcdd9231bp+18) (mkGeofence 3 4 0))
    IsDisjoint
  <> hasFlag (@Intersection lopsided (mkGeofence 3 4 0) (mkGeofence 1 2 0x1.3308bcdd9231bp+18))
       IsDisjoint.
Proof.
  split; [reflexivity|]. split; [reflexivity|]. vm_compute. discriminate.
Defined.

(** The [flat] distance between coincident points is 0. *)
Lemma Intersection_coincident_reported_disjoint_witness :
  @GreatCircleDistance flat (NewPoint 0 0) (NewPoint 0 0) = 0%float /\
  (@Intersection flat (mkGeofence 0 0 25) (mkGeofence 0 0 25) = IsDisjoint /\
   PrimFloat.leb (25 + 25) (0 * 1000) = false).
Proof.
  split; [reflexivity|].
  apply (@Intersection_coincident_reported_disjoint flat). reflexivity.
Defined.

(** A negated geofence rule after [!*], no database, address 8.8.8.8. *)
Lemma Allow_geofence_without_database_witness :
  existsb isGeofenceRule
    [allowAll; setGeofence (mkGeofence 48 2 1000) (setNegation true zeroRule)] = true /\
  fst (@Allow flat offline (mkContext None None) (net.IPv4 8 8 8 8)
         (mkBlacklist [allowAll; setGeofence (mkGeofence 48 2 1000) (setNegation true zeroRule)]))
  = false.
Proof.
  split; [reflexivity|].
  apply (@Allow_geofence_without_database flat offline). reflexivity.
Defined.

(** The address that the [resolving] platform gives every host. *)
Lemma Allow_hostname_resolved_allows_witness :
  @lookupIP resolving "example.com" = ([net.IPv4 93 184 216 34], None) /\
  snd (@lookupAddr resolving (@net.IP_String resolving (net.IPv4 93 184 216 34))) = None /\
  (@ParseBlacklist resolving "example.com"
   = Returns (mkBlacklist [setHostname "example.com" zeroRule]) /\
   net.Equal (net.IPv4 93 184 216 34) (net.IPv4 93 184 216 34) = true /\
   fst (@Allow flat resolving noDatabases (net.IPv4 93 184 216 34)
          (mkBlacklist [setHostname "example.com" zeroRule])) = true).
Proof.
  split; [reflexivity|]. split; [reflexivity|].
  apply (@Allow_hostname_resolved_allows flat resolving); reflexivity.
Defined.

(** The rule set of the lines [!*] and [10.0.0.0/8] and the address
    10.1.2.3: no rule stops the loop, the network rule matches last. *)
Lemma Allow_last_match_decides_witness :
  forallb (fun item => negb (@stops flat offline noDatabases (net.IPv4 10 1 2 3) item))
    [allowAll; network10] = true /\
  fst (@Allow flat offline noDatabases (net.IPv4 10 1 2 3) (mkBlacklist [allowAll; network10]))
  = verdict (@lastMatching flat offline noDatabases (net.IPv4 10 1 2 3) [allowAll; network10] None).
Proof.
  split; [reflexivity|].
  apply (proj2 (@Allow_last_match_decides flat offline)). reflexivity.
Defined.

(** For the same rule set and address the last matching rule is the
    network rule, which is not negated, and [Allow] denies: the result is
    not [not negated]. *)
Lemma Allow_not_negated_counterexample :
  @lastMatching flat offline noDatabases (net.IPv4 10 1 2 3) [allowAll; network10] None
  = Some network10 /\
  fst (@Allow flat offline noDatabases (net.IPv4 10 1 2 3) (mkBlacklist [allowAll; network10]))
  <> negb (Negation network10).
Proof.
  split; [reflexivity|]. vm_compute. discriminate.
Defined.

(** On the [offline] platform every expression compiles. *)
Lemma render_of_regexp_rule_panics_witness :
  @compileError offline "abcd" = None /\
  (@ParseBlacklist offline "~ abcd"
   = Returns (mkBlacklist [setRegexp (regexp.mkRegexp "abcd") zeroRule]) /\
   @Blacklist_String offline (mkBlacklist [setRegexp (regexp.mkRegexp "abcd") zeroRule])
   = "# Blacklist with 1 item" ++ LF ++ "~abcd # Regular Expression" /\
   @ParseBlacklist offline ("# Blacklist with 1 item" ++ LF ++ "~abcd # Regular Expression")
   = Panics "slice bounds out of range").
Proof.
  split; [reflexivity|].
  apply (@render_of_regexp_rule_panics offline). reflexivity.
Defined.

(** ** Further properties of [Allow] *)

Section AllowCharacterized.
Context `{GeoLib} `{Platform}.

(** A rule that returns from the loop with empty caches does so with
    filled ones. *)
Lemma step_cached_Return ctx ip item user category result :
  userCached ctx ip user ->
  step ctx ip item None None = Return result ->
  step ctx ip item user category = Return false.
Proof.
  intros Hc. unfold step.
  destruct (All item); [discriminate|].
  destruct (Network item); [discriminate|].
  destruct (IP item); [discriminate|].
  destruct (nonEmpty (Hostname item)); [discriminate|].
  destruct (Regexp item); [discriminate|].
  destruct (Geofence' item) as [bounds|].
  { unfold stepGeofence.
    destruct (GeoDB ctx) as [db|] eqn:Hdb; [|reflexivity].
    destruct (geoip2.Reader_City db ip) as [record|err] eqn:Hcity; [discriminate|].
    intros _.
    destruct Hc as [-> | (db' & record' & Hdb' & Hcity' & ->)]; [reflexivity|].
    rewrite Hdb in Hdb'. injection Hdb' as <-.
    rewrite Hcity in Hcity'. discriminate. }
  rewrite !stepIPCat_returns.
  destruct (nonEmpty (IPCat item)); [reflexivity|discriminate].
Qed.

(** One stopping rule anywhere in the list makes the loop return [false]. *)
Lemma allowLoop_stops ctx ip items :
  existsb (stops ctx ip) items = true ->
  forall allow user category,
    userCached ctx ip user ->
    allowLoop ctx ip items allow user category = false.
Proof.
  induction items as [|item rest IH]; simpl; intros Hex allow user category Hc.
  - discriminate.
  - unfold stops in Hex at 1.
    destruct (step ctx ip item None None) as [r|matched u c] eqn:Hstep.
    + rewrite (step_cached_Return _ _ _ _ category _ Hc Hstep). reflexivity.
    + destruct (step_cached _ _ _ _ category _ _ _ Hc Hstep) as (user' & -> & Hc').
      apply IH; assumption.
Qed.

Lemma forallb_negb_existsb {A} (f : A -> bool) (l : list A) :
  existsb f l = false -> forallb (fun x => negb (f x)) l = true.
Proof.
  induction l as [|x r IH]; simpl; [reflexivity|].
  destruct (f x); simpl; [discriminate|exact IH].
Qed.

(** The loop in full: [false] with a stopping rule, the verdict of the
    last matching rule without. *)
Lemma allowLoop_characterized ctx ip items last user category :
  userCached ctx ip user ->
  allowLoop ctx ip items (verdict last) user category
  = if existsb (stops ctx ip) items then false
    else verdict (lastMatching ctx ip items last).
Proof.
  intros Hc. destruct (existsb (stops ctx ip) items) eqn:Hex.
  - apply allowLoop_stops; assumption.
  - apply allowLoop_lastMatching; [|assumption].
    apply forallb_negb_existsb. exact Hex.
Qed.

(** X1: [Allow] denies when some rule of the list, taken on its own,
    returns from inside the loop (a geofence rule without usable
    database, any ipcat rule); otherwise its result is the negation flag
    of the last matching rule, and [true] when no rule matches. *)
Theorem Allow_characterized (ctx : BlacklistContext) (ip : net.IP) (b : Blacklist) :
  fst (Allow ctx ip b)
  = if existsb (stops ctx ip) (List b) then false
    else verdict (lastMatching ctx ip (List b) None).
Proof.
  unfold Allow, sbind, sget, sret. simpl.
  apply (allowLoop_characterized ctx ip (List b) None). left. reflexivity.
Qed.

Lemma existsb_implied {A} (f g : A -> bool) (l : list A) :
  (forall x, f x = true -> g x = true) -> existsb f l = true -> existsb g l = true.
Proof.
  intros Hfg. induction l as [|x r IH]; simpl; [discriminate|].
  destruct (f x) eqn:Hf; simpl.
  - intros _. rewrite (Hfg x Hf). reflexivity.
  - intros Hr. rewrite (IH Hr). apply orb_true_r.
Qed.

Lemma isIPCatRule_stops ctx ip item : isIPCatRule item = true -> stops ctx ip item = true.
Proof.
  unfold isIPCatRule, stops, step. intros Hi.
  destruct (All item); [discriminate|].
  destruct (Network item); [discriminate|].
  destruct (IP item); [discriminate|].
  destruct (nonEmpty (Hostname item)); [discriminate|].
  destruct (Regexp item); [discriminate|].
  destruct (Geofence' item); [discriminate|].
  destruct (nonEmpty (IPCat item)); [|discriminate].
  rewrite stepIPCat_returns. reflexivity.
Qed.

(** X2: a blacklist that holds an ipcat rule anywhere denies every
    address in every context, with or without ipcat database, whatever
    the other rules and whatever the category of the address. *)
Theorem Allow_with_ipcat_rule_denies (ctx : BlacklistContext) (ip : net.IP) (b : Blacklist) :
  existsb isIPCatRule (List b) = true ->
  fst (Allow ctx ip b) = false.
Proof.
  intros Hex. unfold Allow, sbind, sget, sret. simpl.
  apply allowLoop_stops; [|left; reflexivity].
  apply (existsb_implied isIPCatRule); [|exact Hex].
  intros item. apply isIPCatRule_stops.
Qed.

Lemma geofence_lookup_error_stops ctx ip item db err :
  GeoDB ctx = Some db -> geoip2.Reader_City db ip = inr err ->
  isGeofenceRule item = true -> stops ctx ip item = true.
Proof.
  unfold isGeofenceRule, stops, step, stepGeofence. intros Hdb Hcity Hg.
  destruct (All item); [discriminate|].
  destruct (Network item); [discriminate|].
  destruct (IP item); [discriminate|].
  destruct (nonEmpty (Hostname item)); [discriminate|].
  destruct (Regexp item); [discriminate|].
  destruct (Geofence' item); [|discriminate].
  rewrite Hdb, Hcity. reflexivity.
Qed.

(** X3: when the geolocation database reports an error for the address,
    a blacklist that holds a geofence rule denies, whatever the other
    rules and the negation flags. *)
Theorem Allow_geofence_lookup_error_denies (db : geoip2.Reader)
    (ipset : option ipcat.IntervalSet) (ip : net.IP) (err : error) (b : Blacklist) :
  geoip2.Reader_City db ip = inr err ->
  existsb isGeofenceRule (List b) = true ->
  fst (Allow (mkContext (Some db) ipset) ip b) = false.
Proof.
  intros Hcity Hex. unfold Allow, sbind, sget, sret. simpl.
  apply allowLoop_stops; [|left; reflexivity].
  apply (existsb_implied isGeofenceRule); [|exact Hex].
  intros item. apply (geofence_lookup_error_stops _ ip item db err); [reflexivity|exact Hcity].
Qed.

Lemma step_inert ctx ip item user category :
  isInert item = true -> step ctx ip item user category = Next false user category.
Proof.
  unfold isInert, populated, step. intros Hi.
  destruct (All item); [discriminate|].
  destruct (Network item); [discriminate|].
  destruct (IP item); [discriminate|].
  destruct (nonEmpty (Hostname item)); [discriminate|].
  destruct (Regexp item); [discriminate|].
  destruct (Geofence' item); [discriminate|].
  destruct (nonEmpty (IPCat item)); [discriminate|].
  reflexivity.
Qed.

Lemma allowLoop_without_inert ctx ip items :
  forall allow user category,
    allowLoop ctx ip (filter (fun item => negb (isInert item)) items) allow user category
    = allowLoop ctx ip items allow user category.
Proof.
  induction items as [|item rest IH]; simpl; intros allow user category; [reflexivity|].
  destruct (isInert item) eqn:Hi; simpl.
  - rewrite (step_inert ctx ip item user category Hi). apply IH.
  - destruct (step ctx ip item user category); [reflexivity|apply IH].
Qed.

(** X4: rules without discriminant (comments, and the rules that stand
    for lines with a parse error) are inert: taking them out of a
    blacklist, wherever they stand, does not change the result of [Allow]. *)
Theorem Allow_ignores_inert_rules (ctx : BlacklistContext) (ip : net.IP) (b : Blacklist) :
  fst (Allow ctx ip (mkBlacklist (filter (fun item => negb (isInert item)) (List b))))
  = fst (Allow ctx ip b).
Proof.
  unfold Allow, sbind, sget, sret. simpl. apply allowLoop_without_inert.
Qed.

Lemma matchRegexp_resolved re ip :
  snd (lookupAddr (net.IP_String ip)) = None -> matchRegexp re ip = false.
Proof.
  unfold matchRegexp, net.LookupAddr.
  destruct (lookupAddr (net.IP_String ip)) as [names e]. simpl. intros ->. reflexivity.
Qed.

Lemma allowLoop_name_rules_resolved ctx ip items :
  forallb isNameRule items = true ->
  Forall (fun item => nonEmpty (Hostname item) = true ->
                      snd (lookupIP (Hostname item)) = None) items ->
  snd (lookupAddr (net.IP_String ip)) = None ->
  forall allow user category, allowLoop ctx ip items allow user category = allow.
Proof.
  intros Hall Hfwd Hrev. induction items as [|item rest IH]; simpl; intros allow user category.
  - reflexivity.
  - simpl in Hall. apply andb_prop in Hall. destruct Hall as [Hitem Hrest].
    inversion Hfwd as [|? ? Hitemfwd Hrestfwd]; subst.
    unfold isNameRule in Hitem. unfold step.
    destruct (All item); [discriminate|].
    destruct (Network item); [discriminate|].
    destruct (IP item); [discriminate|].
    destruct (nonEmpty (Hostname item)).
    + rewrite (matchHostname_resolved item ip (Hitemfwd eq_refl) Hrev). apply IH; assumption.
    + destruct (Regexp item); [|discriminate].
      rewrite (matchRegexp_resolved _ ip Hrev). apply IH; assumption.
Qed.

(** X5: a blacklist made of hostname and regular expression rules only
    allows every address for which the resolver answers without error
    the lookups that [Allow] makes: the forward lookup of the host name of
    every rule that has one, and the reverse lookup of the address.
    These rules read the answers of failed lookups only. *)
Theorem Allow_name_rules_resolved_allows (ctx : BlacklistContext) (ip : net.IP) (b : Blacklist) :
  forallb isNameRule (List b) = true ->
  Forall (fun item => nonEmpty (Hostname item) = true ->
                      snd (lookupIP (Hostname item)) = None) (List b) ->
  snd (lookupAddr (net.IP_String ip)) = None ->
  fst (Allow ctx ip b) = true.
Proof.
  intros Hall Hfwd Hrev. unfold Allow, sbind, sget, sret. simpl.
  apply allowLoop_name_rules_resolved; assumption.
Qed.

Lemma lastMatching_app ctx ip items more last :
  lastMatching ctx ip (items ++ more) last
  = lastMatching ctx ip more (lastMatching ctx ip items last).
Proof.
  revert last. induction items as [|item rest IH]; simpl; intros last; [reflexivity|apply IH].
Qed.

(** X6: with a wildcard as its last rule, a blacklist gives every address
    the negation flag of the wildcard (a final [*] denies everyone, a
    final [!*] allows everyone), unless a rule before it returns from
    inside the loop, which denies. *)
Theorem Allow_final_wildcard (ctx : BlacklistContext) (ip : net.IP)
    (items : list BlacklistRule) (wildcard : BlacklistRule) :
  All wildcard = true ->
  fst (Allow ctx ip (mkBlacklist (items ++ [wildcard])))
  = if existsb (stops ctx ip) items then false else Negation wildcard.
Proof.
  intros Hw. unfold Allow, sbind, sget, sret. simpl.
  etransitivity;
    [apply (allowLoop_characterized ctx ip (items ++ [wildcard]) None None None);
     left; reflexivity|].
  rewrite existsb_app, lastMatching_app. simpl.
  unfold stops at 2, matches, step. rewrite Hw. simpl.
  rewrite orb_false_r. reflexivity.
Qed.
End AllowCharacterized.

(** ** Further properties of the access path *)

Section AccessAccounting.
Context `{GeoLib} `{Platform} `{EntryStore}.

(** X7: the part of [Access] after the lookup returns the entry exactly
    when the entry is not in training, is not expired and its blacklist
    allows the address. *)
Theorem accessEntry_grants (ctx : BlacklistContext) (ip : net.IP) (date : string)
    (e : ZerodropEntry) :
  fst (accessEntry ctx ip date (mkFrame e []))
  = (negb (AccessTrain e) && negb (storeIsExpired e)
     && fst (Allow ctx ip (AccessBlacklist e)))%bool.
Proof.
  unfold accessEntry, sbind, sget, sret. cbn.
  destruct e as [name train [rules] denied granted]. cbn.
  destruct train; cbn.
  - destruct (GeoDB ctx) as [db|]; [destruct (geoip2.Reader_City db ip)|]; cbn;
      destruct (storeUpdateError _); reflexivity.
  - destruct (storeIsExpired _); cbn; [reflexivity|].
    destruct (allowLoop ctx ip rules true None None); reflexivity.
Qed.

(** The local entry after a request for an entry that is not in training. *)
Lemma accessEntry_counts (ctx : BlacklistContext) (ip : net.IP) (date : string)
    (e : ZerodropEntry) :
  AccessTrain e = false ->
  let granted := fst (accessEntry ctx ip date (mkFrame e [])) in
  let fr := snd (accessEntry ctx ip date (mkFrame e [])) in
  entry fr = (if granted then setAccessCount (incr (AccessCount e)) e
              else setAccessBlacklistCount (incr (AccessBlacklistCount e)) e) /\
  committed fr = [entry fr].
Proof.
  unfold accessEntry, sbind, sget, sret. cbn.
  destruct e as [name train [rules] denied granted]. cbn. intros ->.
  destruct (storeIsExpired _); cbn; [split; reflexivity|].
  destruct (allowLoop ctx ip rules true None None); cbn; split; reflexivity.
Qed.

(** X8: a request for an entry that is not in training commits the entry
    exactly once, with one counter incremented and nothing else changed:
    [AccessCount] when the request is granted, [AccessBlacklistCount]
    when it is denied (by expiration or by the blacklist). *)
Theorem accessEntry_counts_once (ctx : BlacklistContext) (ip : net.IP) (date : string)
    (e : ZerodropEntry) :
  AccessTrain e = false ->
  let granted := fst (accessEntry ctx ip date (mkFrame e [])) in
  let fr := snd (accessEntry ctx ip date (mkFrame e [])) in
  entry fr = (if granted then setAccessCount (incr (AccessCount e)) e
              else setAccessBlacklistCount (incr (AccessBlacklistCount e)) e) /\
  committed fr = [entry fr].
Proof.
  apply accessEntry_counts.
Qed.

(** X9: an entry that [Access] returns is the stored entry with
    [AccessCount] incremented, and it is the one entry committed; the
    stored entry is then neither in training nor expired. *)
Theorem Access_returns_committed_entry (ctx : BlacklistContext) (name addr date : string)
    (returned : ZerodropEntry) :
  fst (Access ctx name addr date) = Some returned ->
  exists e : ZerodropEntry,
    storeGet name = Some e /\
    AccessTrain e = false /\ storeIsExpired e = false /\
    returned = setAccessCount (incr (AccessCount e)) e /\
    snd (Access ctx name addr date) = [returned].
Proof.
  unfold Access.
  destruct (splitHostPort addr) as [[host port]|err]; [|discriminate].
  destruct (net.ParseIP host) as [ip|]; [|discriminate].
  destruct (storeGet name) as [e|]; [|discriminate].
  pose proof (accessEntry_grants ctx ip date e) as Hgrant.
  destruct (AccessTrain e) eqn:Htrain.
  { destruct (accessEntry ctx ip date (mkFrame e [])) as [granted fr].
    cbn in Hgrant |- *. rewrite Hgrant. discriminate. }
  pose proof (accessEntry_counts ctx ip date e Htrain) as Hcount. cbn zeta in Hcount.
  destruct (accessEntry ctx ip date (mkFrame e [])) as [granted fr].
  cbn in Hgrant, Hcount |- *.
  destruct granted; [|discriminate].
  intros [= <-]. exists e.
  destruct Hcount as [Hentry Hcommitted].
  destruct (storeIsExpired e) eqn:Hexpired; [discriminate|].
  rewrite Hcommitted, Hentry.
  split; [reflexivity|]. split; [exact Htrain|]. repeat split; reflexivity.
Qed.
End AccessAccounting.

(** ** Further properties of the parser *)

Section ParserTotality.
Context `{Platform}.

(** Splits the goal on a value that a [match] inspects and that holds no
    [match] itself. *)
Ltac split_inner :=
  match goal with
  | |- context [match ?x with _ => _ end] =>
      lazymatch x with
      | context [match _ with _ => _ end] => fail
      | _ => destruct x eqn:?
      end
  end.

Lemma IndexByte_below (s : string) (c : ascii) :
  (-1 <= strings.IndexByte s c < Z.of_nat (String.length s))%Z.
Proof.
  induction s as [|a r IH]; simpl strings.IndexByte; simpl String.length; [lia|].
  destruct (Ascii.eqb a c); [lia|].
  destruct (strings.IndexByte r c <? 0)%Z eqn:Hneg; lia.
Qed.

Lemma substring_whole (s : string) : substring 0 (String.length s) s = s.
Proof.
  induction s as [|a r IH]; simpl; [reflexivity|]. rewrite IH. reflexivity.
Qed.

(** The body of the loop, in terms of the rule text of the line. *)
Lemma parseLine_ruleText (line : string) :
  parseLine line
  = match ruleText line with
    | None => Returns None
    | Some (negated, text) =>
        r <- parseRule (if negated : bool then setNegation true zeroRule else zeroRule) text ;;
        Returns (Some r)
    end.
Proof.
  unfold parseLine, ruleText, stripComment.
  pose proof (IndexByte_below line "#") as Hi.
  destruct (0 <=? strings.IndexByte line "#")%Z eqn:Hfound.
  - unfold sliceTo.
    destruct (Nat.leb_spec (Z.to_nat (strings.IndexByte line "#")) (String.length line)) as [_|Hlt];
      [|lia].
    cbn [obind].
    destruct (strings.TrimSpace _) as [|c rest]; [reflexivity|].
    cbn. destruct (Ascii.eqb c "!"); [|reflexivity].
    unfold sliceFrom. cbn. rewrite Nat.sub_0_r, substring_whole. reflexivity.
  - cbn [obind].
    destruct (strings.TrimSpace line) as [|c rest]; [reflexivity|].
    cbn. destruct (Ascii.eqb c "!"); [|reflexivity].
    unfold sliceFrom. cbn. rewrite Nat.sub_0_r, substring_whole. reflexivity.
Qed.

(** The tests on the kind of rule panic on short texts and on no other. *)
Lemma parseRule_panics (item : BlacklistRule) (line : string) :
  panics (parseRule item line)
  = (Nat.ltb (String.length line) 6 && negb (String.eqb line "*"))%bool.
Proof.
  unfold parseRule.
  destruct (String.eqb line "*"); [rewrite andb_false_r; reflexivity|].
  rewrite andb_true_r. unfold sliceTo, sliceFrom.
  destruct (Nat.leb_spec 6 (String.length line)) as [Hlong|Hshort].
  - destruct (Nat.ltb_spec (String.length line) 6) as [Hlt|_]; [lia|].
    destruct line as [|a rest]; [simpl in Hlong; lia|].
    unfold parseGeofence, parseRegexp, sliceFrom. cbn.
    repeat (split_inner; cbn); reflexivity.
  - destruct (Nat.ltb_spec (String.length line) 6) as [_|Hge]; [reflexivity|lia].
Qed.

Lemma parseLines_panics (lines : list string) :
  forall blacklist,
    panics (parseLines lines blacklist) = existsb shortRuleLine lines.
Proof.
  induction lines as [|line rest IH]; intros blacklist; [reflexivity|].
  cbn [parseLines existsb]. rewrite parseLine_ruleText. unfold shortRuleLine at 1.
  destruct (ruleText line) as [[negated text]|]; cbn [obind].
  - rewrite <- (parseRule_panics (if negated then setNegation true zeroRule else zeroRule) text).
    destruct (parseRule _ text); cbn; [apply IH|reflexivity].
  - cbn. apply IH.
Qed.

(** X10: [ParseBlacklist] panics exactly on the texts that have a line
    whose rule text (the line without comment, surrounding blanks and
    negation mark) is shorter than six bytes and is not [*]; on every
    other text it returns a blacklist. *)
Theorem ParseBlacklist_panics_on_short_lines (text : string) :
  panics (ParseBlacklist text) = existsb shortRuleLine (strings.Split text "010"%char).
Proof.
  unfold ParseBlacklist. apply parseLines_panics.
Qed.
End ParserTotality.

Section ParserComposition.
Context `{Platform}.

Ltac split_inner :=
  match goal with
  | |- context [match ?x with _ => _ end] =>
      lazymatch x with
      | context [match _ with _ => _ end] => fail
      | _ => destruct x eqn:?
      end
  end.

Lemma Split_nonempty (s : string) (sep : ascii) : strings.Split s sep <> [].
Proof.
  destruct s as [|a r]; simpl; [discriminate|].
  destruct (Ascii.eqb a sep); [discriminate|].
  destruct (strings.Split r sep); discriminate.
Qed.

(** The lines of two texts joined by the separator. *)
Lemma Split_joined (a b : string) (sep : ascii) :
  strings.Split (a ++ String sep b) sep = (strings.Split a sep ++ strings.Split b sep)%list.
Proof.
  induction a as [|c r IH]; simpl.
  - rewrite Ascii.eqb_refl. reflexivity.
  - destruct (Ascii.eqb c sep); [rewrite IH; reflexivity|].
    rewrite IH.
    destruct (strings.Split r sep) as [|l ls] eqn:Hr; [|reflexivity].
    exfalso. exact (Split_nonempty r sep Hr).
Qed.

Lemma Split_without_separator (s : string) (sep : ascii) :
  hasByte s sep = false -> strings.Split s sep = [s].
Proof.
  induction s as [|c r IH]; simpl; [reflexivity|].
  destruct (Ascii.eqb c sep); simpl; [discriminate|].
  intros Hr. rewrite (IH Hr). reflexivity.
Qed.

Lemma parseLines_app (l1 l2 : list string) :
  forall blacklist,
    parseLines (l1 ++ l2) blacklist = (b1 <- parseLines l1 blacklist ;; parseLines l2 b1).
Proof.
  induction l1 as [|line rest IH]; intros blacklist; [reflexivity|].
  cbn [app parseLines]. destruct (parseLine line) as [[item|]|reason]; cbn [obind];
    [apply IH | apply IH | reflexivity].
Qed.

(** Parsing appends to the blacklist it starts from. *)
Lemma parseLines_appends (lines : list string) :
  forall blacklist,
    parseLines lines blacklist
    = (parsed <- parseLines lines (mkBlacklist []) ;;
       Returns (mkBlacklist (List blacklist ++ List parsed)%list)).
Proof.
  induction lines as [|line rest IH]; intros [rules].
  - cbn. rewrite app_nil_r. reflexivity.
  - cbn [parseLines]. destruct (parseLine line) as [[item|]|reason]; cbn [obind].
    + rewrite (IH (snd (Add item (mkBlacklist rules)))).
      rewrite (IH (snd (Add item (mkBlacklist [])))).
      destruct (parseLines rest (mkBlacklist [])) as [[parsed]|reason]; cbn; [|reflexivity].
      rewrite <- app_assoc. reflexivity.
    + apply IH.
    + reflexivity.
Qed.

Lemma ParseBlacklist_joined (a b : string) :
  ParseBlacklist (a ++ LF ++ b)
  = (x <- ParseBlacklist a ;;
     y <- ParseBlacklist b ;;
     Returns (mkBlacklist (List x ++ List y)%list)).
Proof.
  unfold ParseBlacklist, LF. cbn [append].
  rewrite Split_joined, parseLines_app.
  destruct (parseLines (strings.Split a "010") (mkBlacklist [])) as [x|reason]; cbn [obind];
    [|reflexivity].
  apply parseLines_appends.
Qed.

(** X11: the blacklist of two texts joined by a line feed holds the rules
    of the first text followed by the rules of the second; it panics when
    parsing either text does, the first text first. *)
Theorem ParseBlacklist_concatenates (a b : string) :
  ParseBlacklist (a ++ LF ++ b)
  = (x <- ParseBlacklist a ;;
     y <- ParseBlacklist b ;;
     Returns (mkBlacklist (List x ++ List y)%list)).
Proof.
  apply ParseBlacklist_joined.
Qed.

Lemma hasByte_app (a b : string) (c : ascii) :
  hasByte (a ++ b) c = (hasByte a c || hasByte b c)%bool.
Proof.
  induction a as [|x r IH]; simpl; [reflexivity|]. rewrite IH. apply orb_assoc.
Qed.

Lemma digits_without_line_feed (d : Decimal.uint) :
  hasByte (NilEmpty.string_of_uint d) "010"%char = false.
Proof.
  induction d; simpl; try assumption; reflexivity.
Qed.

Lemma Itoa_without_line_feed (n : nat) : hasByte (strconv.Itoa n) "010"%char = false.
Proof.
  unfold strconv.Itoa, NilZero.string_of_uint.
  destruct (Nat.to_uint n) eqn:Hn; try reflexivity; rewrite <- Hn; apply digits_without_line_feed.
Qed.

(** A line that starts with ['#'] adds no rule. *)
Lemma parseLine_comment (rest : string) : parseLine (String "#" rest) = Returns None.
Proof.
  reflexivity.
Qed.

(** The header that [Blacklist.String] writes for a count of items. *)
Lemma header_parses_empty (itemCount : nat) :
  ParseBlacklist
    match itemCount with
    | 0 => "# Empty blacklist"
    | 1 => "# Blacklist with 1 item"
    | _ => "# Blacklist with " ++ strconv.Itoa itemCount ++ " items"
    end
  = Returns (mkBlacklist []).
Proof.
  destruct itemCount as [|[|n]]; [reflexivity|reflexivity|].
  unfold ParseBlacklist. rewrite Split_without_separator.
  - cbn [append]. cbn [parseLines]. rewrite parseLine_comment. reflexivity.
  - rewrite !hasByte_app, Itoa_without_line_feed. reflexivity.
Qed.

(** X12: parsing the text that [Blacklist.String] renders gives what
    parsing its rule lines alone gives: the header with the count of
    items never becomes a rule. *)
Theorem ParseBlacklist_skips_header (b : Blacklist) :
  ParseBlacklist (Blacklist_String b)
  = ParseBlacklist (strings.Join (map BlacklistRule_String (List b)) LF).
Proof.
  unfold Blacklist_String. fold LF.
  set (header := match length _ with 0 => _ | _ => _ end).
  assert (Hheader : ParseBlacklist header = Returns (mkBlacklist [])) by apply header_parses_empty.
  destruct (map BlacklistRule_String (List b)) as [|line lines].
  - cbn [strings.Join]. rewrite Hheader. reflexivity.
  - change (strings.Join (header :: line :: lines) LF)
      with (header ++ LF ++ strings.Join (line :: lines) LF).
    rewrite ParseBlacklist_joined, Hheader. cbn [obind]. clear Hheader.
    destruct (ParseBlacklist (strings.Join (line :: lines) LF)) as [[rules]|reason];
      reflexivity.
Qed.

(** X13: the negation flag of the rule under construction goes through
    the tests on the kind of rule untouched: a negation mark changes the
    flag of the parsed rule and nothing else, and panics on the same texts. *)
Theorem parseRule_negation (negated : bool) (item : BlacklistRule) (line : string) :
  parseRule (setNegation negated item) line
  = (r <- parseRule item line ;; Returns (setNegation negated r)).
Proof.
  unfold parseRule, parseGeofence, parseRegexp, obind, sliceTo, sliceFrom, byteAt.
  repeat split_inner; reflexivity.
Qed.

Lemma parseRule_wellTagged (item r : BlacklistRule) (line : string) :
  populated item = 0 -> Comment item = "" ->
  parseRule item line = Returns r -> wellTagged r = true.
Proof.
  destruct item as [comment negation all network ip hostname re fence cat].
  unfold populated. cbn.
  destruct all; [discriminate|].
  destruct network; [discriminate|].
  destruct ip; [discriminate|].
  destruct (nonEmpty hostname) eqn:Hh; [discriminate|].
  destruct re; [discriminate|].
  destruct fence; [discriminate|].
  destruct (nonEmpty cat) eqn:Hc; [discriminate|].
  intros _ ->.
  unfold parseRule, parseGeofence, parseRegexp, obind, sliceTo, sliceFrom, byteAt.
  repeat split_inner; try discriminate;
    intros [= <-]; unfold wellTagged, populated; cbn; rewrite ?Hh, ?Hc; cbn;
    repeat (split_inner; cbn); reflexivity.
Qed.

Lemma parseLines_wellTagged (lines : list string) :
  forall blacklist parsed,
    forallb wellTagged (List blacklist) = true ->
    parseLines lines blacklist = Returns parsed ->
    forallb wellTagged (List parsed) = true.
Proof.
  induction lines as [|line rest IH]; intros blacklist parsed Hacc.
  - intros [= <-]. exact Hacc.
  - cbn [parseLines]. rewrite parseLine_ruleText.
    destruct (ruleText line) as [[negated text]|]; cbn [obind]; [|apply IH; exact Hacc].
    destruct (parseRule _ text) as [r|reason] eqn:Hr; cbn [obind]; [|discriminate].
    apply IH. cbn. rewrite forallb_app, Hacc. cbn.
    rewrite (parseRule_wellTagged _ r text) with (3 := Hr); [reflexivity| |];
      destruct negated; reflexivity.
Qed.

(** X14: every rule that [ParseBlacklist] returns has at most one
    populated discriminant, and a rule that carries a comment (the
    message of a parse error) has none. *)
Theorem ParseBlacklist_rules_wellTagged (text : string) (b : Blacklist) :
  ParseBlacklist text = Returns b -> forallb wellTagged (List b) = true.
Proof.
  unfold ParseBlacklist. apply parseLines_wellTagged. reflexivity.
Qed.
End ParserComposition.

(** ** Round trips through [String] and the parser *)

Section RoundTrips.
Context `{Platform}.

Lemma list_ascii_of_append (a b : string) :
  list_ascii_of_string (a ++ b) = (list_ascii_of_string a ++ list_ascii_of_string b)%list.
Proof.
  induction a as [|c r IH]; simpl; [reflexivity|]. rewrite IH. reflexivity.
Qed.

Lemma append_associative (a b c : string) : (a ++ b) ++ c = a ++ (b ++ c).
Proof.
  induction a as [|x r IH]; simpl; [reflexivity|]. rewrite IH. reflexivity.
Qed.

Lemma forallb_rev {A} (f : A -> bool) (l : list A) : forallb f (rev l) = forallb f l.
Proof.
  induction l as [|x r IH]; simpl; [reflexivity|].
  rewrite forallb_app, IH. simpl. rewrite andb_true_r. apply andb_comm.
Qed.

Lemma trimStart_kept (l : list ascii) :
  forallb strings.isASCII l = true ->
  match l with c :: _ => negb (strings.asciiSpace c) | [] => true end = true ->
  strings.trimStart l = inr l.
Proof.
  destruct l as [|c r]; simpl; [reflexivity|].
  intros Hascii Hfirst. apply andb_prop in Hascii. destruct Hascii as [-> _].
  apply negb_true_iff in Hfirst. rewrite Hfirst. reflexivity.
Qed.

(** [TrimSpace] leaves trimmed text alone. *)
Lemma TrimSpace_trimmed (s : string) : trimmed s = true -> strings.TrimSpace s = s.
Proof.
  unfold trimmed, allASCII, firstOK, lastOK, strings.TrimSpace. intros Ht.
  apply andb_prop in Ht. destruct Ht as [Ht Hlast].
  apply andb_prop in Ht. destruct Ht as [Hascii Hfirst].
  rewrite (trimStart_kept _ Hascii Hfirst).
  rewrite trimStart_kept; [| rewrite forallb_rev; exact Hascii | exact Hlast].
  rewrite rev_involutive. apply string_of_list_ascii_of_string.
Qed.

(** [TrimSpace] takes the space off that separates a rule from its tag. *)
Lemma TrimSpace_trailing_space (s : string) :
  trimmed s = true -> nonEmpty s = true -> strings.TrimSpace (s ++ " ") = s.
Proof.
  unfold trimmed, allASCII, firstOK, lastOK, strings.TrimSpace. intros Ht Hne.
  apply andb_prop in Ht. destruct Ht as [Ht Hlast].
  apply andb_prop in Ht. destruct Ht as [Hascii Hfirst].
  rewrite list_ascii_of_append.
  change (list_ascii_of_string " ") with [" "%char].
  set (l := list_ascii_of_string s) in *.
  assert (Hl : l <> []) by (subst l; destruct s; [discriminate Hne | discriminate]).
  rewrite (trimStart_kept (l ++ [" "%char])).
  - rewrite rev_unit.
    change (strings.trimStart (" "%char :: rev l)) with (strings.trimStart (rev l)).
    rewrite trimStart_kept; [| rewrite forallb_rev; exact Hascii | exact Hlast].
    rewrite rev_involutive. subst l. apply string_of_list_ascii_of_string.
  - rewrite forallb_app, Hascii. reflexivity.
  - destruct l as [|c r]; [contradiction|exact Hfirst].
Qed.

(** Text put in front of trimmed text. *)
Lemma trimmed_prefixed (p s : string) :
  allASCII p = true -> firstOK (p ++ s) = true ->
  trimmed s = true -> nonEmpty s = true ->
  trimmed (p ++ s) = true.
Proof.
  unfold trimmed, allASCII, lastOK. intros Hp Hfirst Ht Hne.
  apply andb_prop in Ht. destruct Ht as [Ht Hlast].
  apply andb_prop in Ht. destruct Ht as [Hascii _].
  rewrite Hfirst, list_ascii_of_append, forallb_app, Hp, Hascii, rev_app_distr.
  destruct s as [|c r]; [discriminate|].
  destruct (rev (list_ascii_of_string (String c r))) as [|x l] eqn:Hrev.
  - apply (f_equal (@length ascii)) in Hrev. rewrite length_rev in Hrev. discriminate.
  - exact Hlast.
Qed.

Lemma IndexByte_at_first (x y : string) (c : ascii) :
  hasByte x c = false ->
  strings.IndexByte (x ++ String c y) c = Z.of_nat (String.length x).
Proof.
  induction x as [|a r IH]; simpl hasByte; intros Hx.
  - simpl. rewrite Ascii.eqb_refl. reflexivity.
  - apply orb_false_elim in Hx. destruct Hx as [Ha Hr].
    cbn [append strings.IndexByte String.length]. rewrite Ha, (IH Hr).
    destruct (Z.ltb_spec (Z.of_nat (String.length r)) 0); lia.
Qed.

Lemma IndexByte_absent (s : string) (c : ascii) :
  hasByte s c = false -> strings.IndexByte s c = (-1)%Z.
Proof.
  induction s as [|a r IH]; simpl; intros Hs; [reflexivity|].
  apply orb_false_elim in Hs. destruct Hs as [-> Hr]. rewrite (IH Hr). reflexivity.
Qed.

Lemma substring_front (x y : string) : substring 0 (String.length x) (x ++ y) = x.
Proof.
  induction x as [|a r IH]; simpl.
  - destruct y; reflexivity.
  - rewrite IH. reflexivity.
Qed.

Lemma stripComment_plain (s : string) : hasByte s "#" = false -> stripComment s = s.
Proof.
  intros Hs. unfold stripComment. rewrite (IndexByte_absent _ _ Hs). reflexivity.
Qed.

Lemma stripComment_commented (x y : string) :
  hasByte x "#" = false -> stripComment (x ++ String "#" y) = x.
Proof.
  intros Hx. unfold stripComment. rewrite (IndexByte_at_first _ _ _ Hx).
  destruct (Z.leb_spec 0 (Z.of_nat (String.length x))) as [_|Hneg]; [|lia].
  rewrite Nat2Z.id. apply substring_front.
Qed.

Lemma plainText_parts (s : string) :
  plainText s = true -> trimmed s = true /\ hasByte s "#" = false.
Proof.
  unfold plainText. intros Hp. apply andb_prop in Hp. destruct Hp as [Ht Hh].
  apply negb_true_iff in Hh. split; assumption.
Qed.

Lemma trimmed_allASCII (s : string) : trimmed s = true -> allASCII s = true.
Proof.
  unfold trimmed. intros Ht. apply andb_prop in Ht. destruct Ht as [Ht _].
  apply andb_prop in Ht. destruct Ht as [Ha _]. exact Ha.
Qed.

(** The rule text of a rendered line: the text [t] that is rendered,
    after an optional negation mark and before an optional tag. *)
Lemma ruleText_rendered (negated : bool) (t tag : string) (c : ascii) (rest : string) :
  t = String c rest -> Ascii.eqb c "!" = false ->
  plainText t = true ->
  (tag = "" \/ exists label, tag = " # " ++ label) ->
  ruleText ((if negated then "!" else "") ++ t ++ tag) = Some (negated, t).
Proof.
  intros Hshape Hc Hp Htag.
  destruct (plainText_parts _ Hp) as [Ht Hhash].
  assert (Hne : nonEmpty t = true) by (rewrite Hshape; reflexivity).
  set (p := if negated then "!" else "").
  assert (Hpt : trimmed (p ++ t) = true /\ hasByte (p ++ t) "#" = false /\ nonEmpty (p ++ t) = true).
  { destruct negated; subst p; cbn [append].
    - split; [|split; [cbn; exact Hhash | reflexivity]].
      apply (trimmed_prefixed "!" t); [reflexivity | reflexivity | exact Ht | exact Hne].
    - repeat split; assumption. }
  destruct Hpt as (Hpt & Hphash & Hpne).
  assert (Hstripped : strings.TrimSpace (stripComment (p ++ t ++ tag)) = p ++ t).
  { destruct Htag as [-> | [label ->]].
    - replace (t ++ "") with t
        by (clear; induction t as [|a r IH]; simpl; [reflexivity | rewrite <- IH; reflexivity]).
      rewrite (stripComment_plain _ Hphash). apply TrimSpace_trimmed. exact Hpt.
    - replace (p ++ t ++ " # " ++ label) with (((p ++ t) ++ " ") ++ String "#" (" " ++ label))
        by (rewrite !append_associative; reflexivity).
      rewrite stripComment_commented
        by (rewrite hasByte_app, Hphash; reflexivity).
      apply TrimSpace_trailing_space; assumption. }
  unfold ruleText. rewrite Hstripped.
  destruct negated; subst p; cbn [append].
  - cbn. rewrite (TrimSpace_trimmed _ Ht). reflexivity.
  - rewrite Hshape, Hc. reflexivity.
Qed.

Lemma append_empty_r (s : string) : s ++ "" = s.
Proof.
  induction s as [|a r IH]; simpl; [reflexivity|]. rewrite IH. reflexivity.
Qed.

Lemma ruleText_untagged (negated : bool) (t : string) (c : ascii) (rest : string) :
  t = String c rest -> Ascii.eqb c "!" = false ->
  plainText t = true ->
  ruleText ((if negated then "!" else "") ++ t) = Some (negated, t).
Proof.
  intros Hshape Hc Hp.
  rewrite <- (append_empty_r t) at 1.
  apply (ruleText_rendered negated t "" c rest Hshape Hc Hp). left. reflexivity.
Qed.

Lemma plainText_prefixed (p s : string) :
  allASCII p = true -> firstOK (p ++ s) = true -> hasByte p "#" = false ->
  plainText s = true -> nonEmpty s = true ->
  plainText (p ++ s) = true.
Proof.
  intros Hp Hfirst Hhash Hs Hne.
  destruct (plainText_parts _ Hs) as [Ht Hh].
  unfold plainText.
  rewrite (trimmed_prefixed p s Hp Hfirst Ht Hne), hasByte_app, Hhash, Hh. reflexivity.
Qed.

(** The test for the [ipcat ] prefix. *)
Lemma parseRule_ipcat (item : BlacklistRule) (glob : string) :
  parseRule item ("ipcat " ++ glob) = Returns (setIPCat (strings.TrimSpace glob) item).
Proof.
  unfold parseRule, sliceTo, sliceFrom. cbn.
  replace (substring 0 0 glob) with "" by (destruct glob; reflexivity).
  cbn. rewrite Nat.sub_0_r, substring_whole. reflexivity.
Qed.

(** X15: an ipcat rule whose glob is plain text (ASCII, no blank at
    either end, no ['#']) and not empty is parsed back from the line that
    [String] renders for it, negated or not. *)
Theorem ipcat_rule_round_trip (negated : bool) (glob : string) :
  plainText glob = true -> nonEmpty glob = true ->
  parseLine (BlacklistRule_String (setIPCat glob (setNegation negated zeroRule)))
  = Returns (Some (setIPCat glob (setNegation negated zeroRule))).
Proof.
  intros Hp Hne.
  assert (Hline : BlacklistRule_String (setIPCat glob (setNegation negated zeroRule))
                  = (if negated then "!" else "") ++ "ipcat " ++ glob).
  { unfold BlacklistRule_String. cbn. rewrite Hne. destruct negated; reflexivity. }
  rewrite Hline, parseLine_ruleText.
  rewrite (ruleText_untagged negated ("ipcat " ++ glob) "i" ("pcat " ++ glob));
    [| reflexivity | reflexivity
     | apply (plainText_prefixed "ipcat " glob); [reflexivity | reflexivity | reflexivity | exact Hp | exact Hne]].
  rewrite parseRule_ipcat. cbn [obind].
  destruct (plainText_parts _ Hp) as [Ht _]. rewrite (TrimSpace_trimmed _ Ht).
  destruct negated; reflexivity.
Qed.

(** The ['~'] case on a text of six bytes at least. *)
Lemma parseRule_pattern (item : BlacklistRule) (e : string) :
  Nat.leb 5 (String.length e) = true ->
  parseRule item (String "~" e) = parseRegexp item (String "~" e).
Proof.
  intros Hlen. unfold parseRule, sliceTo.
  change (String.eqb (String "~" e) "*") with false.
  change (Nat.leb 6 (String.length (String "~" e))) with (Nat.leb 5 (String.length e)).
  rewrite Hlen. reflexivity.
Qed.

(** X16: a regular expression rule is parsed back from the line that
    [String] renders for it, negated or not, when its expression is plain
    text of five bytes at least that compiles. *)
Theorem regexp_rule_round_trip (negated : bool) (e : string) :
  plainText e = true -> Nat.leb 5 (String.length e) = true ->
  compileError e = None ->
  parseLine (BlacklistRule_String (setRegexp (regexp.mkRegexp e) (setNegation negated zeroRule)))
  = Returns (Some (setRegexp (regexp.mkRegexp e) (setNegation negated zeroRule))).
Proof.
  intros Hp Hlen Hcompiles.
  assert (Hne : nonEmpty e = true) by (destruct e; [discriminate Hlen | reflexivity]).
  assert (Hline : BlacklistRule_String (setRegexp (regexp.mkRegexp e) (setNegation negated zeroRule))
                  = (if negated then "!" else "") ++ String "~" e ++ " # " ++ "Regular Expression").
  { unfold BlacklistRule_String. cbn. destruct negated; reflexivity. }
  rewrite Hline, parseLine_ruleText.
  rewrite (ruleText_rendered negated (String "~" e) (" # " ++ "Regular Expression") "~" e);
    [| reflexivity | reflexivity
     | apply (plainText_prefixed "~" e); [reflexivity | reflexivity | reflexivity | exact Hp | exact Hne]
     | right; eexists; reflexivity].
  rewrite (parseRule_pattern _ e Hlen).
  unfold parseRegexp, sliceFrom. cbn. rewrite Nat.sub_0_r, substring_whole.
  destruct (plainText_parts _ Hp) as [Ht _]. rewrite (TrimSpace_trimmed _ Ht).
  unfold regexp.Compile. rewrite Hcompiles.
  destruct negated; reflexivity.
Qed.

(** The last case of the parser, on a plain host name. *)
Lemma parseRule_hostname (item : BlacklistRule) (h : string) :
  plainHostname h = true ->
  (exists err, net.ParseCIDR h = inr err) -> net.ParseIP h = None ->
  parseRule item h = Returns (setHostname (strings.ToLower h) item).
Proof.
  unfold plainHostname. intros Hh [err Hcidr] Hip.
  apply andb_prop in Hh. destruct Hh as [Hh Hfirst].
  apply andb_prop in Hh. destruct Hh as [Hh Hprefix].
  apply andb_prop in Hh. destruct Hh as [_ Hlen].
  apply negb_true_iff in Hprefix.
  destruct h as [|c rest]; [discriminate|].
  apply andb_prop in Hfirst. destruct Hfirst as [Hfirst Htilde].
  apply andb_prop in Hfirst. destruct Hfirst as [_ Hat].
  apply negb_true_iff in Hat. apply negb_true_iff in Htilde.
  unfold parseRule.
  destruct (String.eqb_spec (String c rest) "*") as [Hstar|_].
  { rewrite Hstar in Hlen. discriminate. }
  unfold sliceTo. rewrite Hlen. cbn [obind].
  destruct (String.eqb_spec (substring 0 6 (String c rest)) "ipcat ") as [Hhead|_].
  { apply (proj2 (prefix_correct "ipcat " (String c rest))) in Hhead.
    rewrite Hhead in Hprefix. discriminate. }
  cbn [byteAt String.get obind]. rewrite Hat, Htilde, Hcidr, Hip. reflexivity.
Qed.

(** X17: a hostname rule is parsed back from the line that [String]
    renders for it, negated or not, when the host name is plain text of
    six bytes at least, in lower case, that does not start like another
    kind of rule and that the standard library takes neither for a
    network nor for an address. *)
Theorem hostname_rule_round_trip (negated : bool) (h : string) :
  plainHostname h = true ->
  (exists err, net.ParseCIDR h = inr err) -> net.ParseIP h = None ->
  strings.ToLower h = h ->
  parseLine (BlacklistRule_String (setHostname h (setNegation negated zeroRule)))
  = Returns (Some (setHostname h (setNegation negated zeroRule))).
Proof.
  intros Hh Hcidr Hip Hlower.
  pose proof Hh as Hparts. unfold plainHostname in Hparts.
  apply andb_prop in Hparts. destruct Hparts as [Hparts Hfirst].
  apply andb_prop in Hparts. destruct Hparts as [Hparts _].
  apply andb_prop in Hparts. destruct Hparts as [Hp Hlen].
  destruct h as [|c rest] eqn:Hshape; [discriminate|]. rewrite <- Hshape in *.
  apply andb_prop in Hfirst. destruct Hfirst as [Hfirst _].
  apply andb_prop in Hfirst. destruct Hfirst as [Hbang _].
  apply negb_true_iff in Hbang.
  assert (Hne : nonEmpty h = true) by (rewrite Hshape; reflexivity).
  assert (Hline : BlacklistRule_String (setHostname h (setNegation negated zeroRule))
                  = (if negated then "!" else "") ++ h ++ " # " ++ "Hostname").
  { unfold BlacklistRule_String. cbn. rewrite Hne. destruct negated; reflexivity. }
  rewrite Hline, parseLine_ruleText.
  rewrite (ruleText_rendered negated h (" # " ++ "Hostname") c rest Hshape Hbang Hp)
    by (right; eexists; reflexivity).
  rewrite (parseRule_hostname _ h Hh Hcidr Hip), Hlower.
  destruct negated; reflexivity.
Qed.
End RoundTrips.

(** ** Geofence rules in [Allow] *)

Lemma SFcompare_reflexive (f : SpecFloat.spec_float) :
  f <> SpecFloat.S754_nan -> SpecFloat.SFcompare f f = Some Eq.
Proof.
  destruct f as [s|s| |s m e]; simpl; intros Hf.
  - reflexivity.
  - destruct s; reflexivity.
  - contradiction.
  - rewrite Z.compare_refl.
    assert (Hm : Pos.compare_cont Eq m m = Eq) by apply Pos.compare_refl.
    rewrite Hm. destruct s; reflexivity.
Qed.

Lemma is_nan_Prim2SF (x : float) :
  PrimFloat.is_nan x = true -> Prim2SF x = SpecFloat.S754_nan.
Proof.
  unfold PrimFloat.is_nan. rewrite eqb_spec. unfold SpecFloat.SFeqb. intros Hx.
  destruct (Prim2SF x) as [s|s| |s m e] eqn:Hsf; try reflexivity; exfalso;
    rewrite SFcompare_reflexive in Hx by discriminate; discriminate.
Qed.

(** No number is greater than an undefined one. *)
Lemma fgt_nan (x d : float) : PrimFloat.is_nan d = true -> fgt x d = false.
Proof.
  intros Hd. unfold fgt. rewrite ltb_spec, (is_nan_Prim2SF _ Hd). reflexivity.
Qed.

Lemma mul_nan (d y : float) : PrimFloat.is_nan d = true -> PrimFloat.is_nan (d * y) = true.
Proof.
  intros Hd. unfold PrimFloat.is_nan. rewrite eqb_spec, !mul_spec, (is_nan_Prim2SF _ Hd).
  reflexivity.
Qed.

Section GeofenceRules.
Context `{GeoLib} `{Platform}.

(** X18: when the library gives no number (NaN) for the distance between
    the two centres, [Intersection] sets no flag at all: the geofences
    count as neither disjoint nor contained in one another. *)
Theorem Intersection_undefined_distance (a b : Geofence) :
  PrimFloat.is_nan
    (GreatCircleDistance (NewPoint (Latitude a) (Longitude a))
                         (NewPoint (Latitude b) (Longitude b))) = true ->
  Intersection a b = 0%N.
Proof.
  intros Hd. unfold Intersection.
  rewrite !fgt_nan by (apply mul_nan; exact Hd). reflexivity.
Qed.

(** X19: with a database that locates the address, a geofence rule
    without negation matches exactly when the sum of the two radii does
    not exceed the distance between the centres, and a negated geofence
    rule matches exactly when, in addition, the radius of the rule
    exceeds the radius of the requester by more than the distance. *)
Theorem geofence_rule_matches (db : geoip2.Reader) (ipset : option ipcat.IntervalSet)
    (ip : net.IP) (item : BlacklistRule) (bounds : Geofence) (record : geoip2.City) :
  isGeofenceRule item = true ->
  Geofence' item = Some bounds ->
  geoip2.Reader_City db ip = inl record ->
  matches (mkContext (Some db) ipset) ip item
  = if Negation item
    then (negb (fgt (Radius bounds + Radius (userGeofence record))
                    (metres bounds (userGeofence record)))
          && fgt (Radius bounds - Radius (userGeofence record))
                 (metres bounds (userGeofence record)))%bool
    else negb (fgt (Radius bounds + Radius (userGeofence record))
                   (metres bounds (userGeofence record))).
Proof.
  intros Hg Hbounds Hcity. unfold isGeofenceRule in Hg.
  unfold matches, step, stepGeofence.
  destruct (All item); [discriminate|].
  destruct (Network item); [discriminate|].
  destruct (IP item); [discriminate|].
  destruct (nonEmpty (Hostname item)); [discriminate|].
  destruct (Regexp item); [discriminate|].
  rewrite Hbounds. cbn [GeoDB]. rewrite Hcity.
  destruct (Intersection_flags bounds (userGeofence record)) as (Hd & Hsup & _).
  rewrite Hd, Hsup. reflexivity.
Qed.
End GeofenceRules.

(** ** The further properties at concrete inputs *)

(** An ipcat rule behind [!*], an empty ipcat database, address 8.8.8.8. *)
Lemma Allow_with_ipcat_rule_denies_witness :
  existsb isIPCatRule [allowAll; setIPCat "tor*" zeroRule] = true /\
  fst (@Allow flat offline (mkContext None (Some emptyIPSet)) (net.IPv4 8 8 8 8)
         (mkBlacklist [allowAll; setIPCat "tor*" zeroRule])) = false.
Proof.
  split; [reflexivity|].
  apply (@Allow_with_ipcat_rule_denies flat offline). reflexivity.
Defined.

(** A geofence rule behind [!*] and a database that finds no address. *)
Lemma Allow_geofence_lookup_error_denies_witness :
  geoip2.Reader_City failingGeoDB (net.IPv4 8 8 8 8) = inr "address not found" /\
  existsb isGeofenceRule [allowAll; setGeofence (mkGeofence 48 2 1000) zeroRule] = true /\
  fst (@Allow flat offline (mkContext (Some failingGeoDB) None) (net.IPv4 8 8 8 8)
         (mkBlacklist [allowAll; setGeofence (mkGeofence 48 2 1000) zeroRule])) = false.
Proof.
  split; [reflexivity|]. split; [reflexivity|].
  apply (@Allow_geofence_lookup_error_denies flat offline failingGeoDB None
           (net.IPv4 8 8 8 8) "address not found"); reflexivity.
Defined.

(** A hostname rule and a regular expression rule on the
    [resolvingNamed] platform, whose resolver rejects the empty host name
    and whose expressions match every name. *)
Lemma Allow_name_rules_resolved_allows_witness :
  forallb isNameRule
    [setHostname "example.com" zeroRule; setRegexp (regexp.mkRegexp "example") zeroRule] = true /\
  snd (@lookupIP resolvingNamed "example.com") = None /\
  snd (@lookupIP resolvingNamed "") = Some "lookup : no such host" /\
  snd (@lookupAddr resolvingNamed (@net.IP_String resolvingNamed (net.IPv4 93 184 216 34))) = None /\
  fst (@Allow flat resolvingNamed noDatabases (net.IPv4 93 184 216 34)
         (mkBlacklist
            [setHostname "example.com" zeroRule; setRegexp (regexp.mkRegexp "example") zeroRule]))
  = true.
Proof.
  split; [reflexivity|]. split; [reflexivity|]. split; [reflexivity|]. split; [reflexivity|].
  apply (@Allow_name_rules_resolved_allows flat resolvingNamed);
    [reflexivity | | reflexivity].
  constructor; [intros _; reflexivity|].
  constructor; [intros Hname; discriminate Hname|].
  constructor.
Defined.

(** The network rule followed by [!*]. *)
Lemma Allow_final_wildcard_witness :
  All allowAll = true /\
  fst (@Allow flat offline noDatabases (net.IPv4 10 1 2 3)
         (mkBlacklist ([network10] ++ [allowAll])))
  = if existsb (@stops flat offline noDatabases (net.IPv4 10 1 2 3)) [network10]
    then false else Negation allowAll.
Proof.
  split; [reflexivity|].
  apply (@Allow_final_wildcard flat offline). reflexivity.
Defined.

(** The sample entry, asked for from 10.1.2.3, which its blacklist denies. *)
Lemma accessEntry_counts_once_witness :
  AccessTrain sampleEntry = false /\
  entry (snd (@accessEntry flat offline sampleStore noDatabases (net.IPv4 10 1 2 3) "now"
                (mkFrame sampleEntry [])))
  = (if fst (@accessEntry flat offline sampleStore noDatabases (net.IPv4 10 1 2 3) "now"
               (mkFrame sampleEntry []))
     then setAccessCount (incr (AccessCount sampleEntry)) sampleEntry
     else setAccessBlacklistCount (incr (AccessBlacklistCount sampleEntry)) sampleEntry) /\
  committed (snd (@accessEntry flat offline sampleStore noDatabases (net.IPv4 10 1 2 3) "now"
                    (mkFrame sampleEntry [])))
  = [entry (snd (@accessEntry flat offline sampleStore noDatabases (net.IPv4 10 1 2 3) "now"
                   (mkFrame sampleEntry [])))].
Proof.
  split; [reflexivity|].
  apply (@accessEntry_counts_once flat offline sampleStore). reflexivity.
Defined.

(** The sample entry, asked for from 8.8.8.8, which its blacklist allows. *)
Lemma Access_returns_committed_entry_witness :
  fst (@Access flat fromResolver sampleStore noDatabases "sample" "8.8.8.8:53" "now")
  = Some (mkEntry "sample" false (mkBlacklist [allowAll; network10]) 4 8) /\
  exists e : ZerodropEntry,
    @storeGet sampleStore "sample" = Some e /\
    AccessTrain e = false /\ @storeIsExpired sampleStore e = false /\
    mkEntry "sample" false (mkBlacklist [allowAll; network10]) 4 8
    = setAccessCount (incr (AccessCount e)) e /\
    snd (@Access flat fromResolver sampleStore noDatabases "sample" "8.8.8.8:53" "now")
    = [mkEntry "sample" false (mkBlacklist [allowAll; network10]) 4 8].
Proof.
  split; [reflexivity|].
  apply (@Access_returns_committed_entry flat fromResolver sampleStore). reflexivity.
Defined.

(** The text of the lines [!*] and [10.0.0.0/8]. *)
Lemma ParseBlacklist_rules_wellTagged_witness :
  @ParseBlacklist offline ("!*" ++ LF ++ "10.0.0.0/8")
  = Returns (mkBlacklist [allowAll; network10]) /\
  forallb wellTagged (List (mkBlacklist [allowAll; network10])) = true.
Proof.
  split; [reflexivity|].
  apply (@ParseBlacklist_rules_wellTagged offline ("!*" ++ LF ++ "10.0.0.0/8")). reflexivity.
Defined.

(** The negated rule [ipcat tor*]. *)
Lemma ipcat_rule_round_trip_witness :
  plainText "tor*" = true /\ nonEmpty "tor*" = true /\
  @parseLine offline (@BlacklistRule_String offline (setIPCat "tor*" (setNegation true zeroRule)))
  = Returns (Some (setIPCat "tor*" (setNegation true zeroRule))).
Proof.
  split; [reflexivity|]. split; [reflexivity|].
  apply (@ipcat_rule_round_trip offline true "tor*"); reflexivity.
Defined.

(** The rule for the expression [\.example\.com$]. *)
Lemma regexp_rule_round_trip_witness :
  plainText "\.example\.com$" = true /\
  Nat.leb 5 (String.length "\.example\.com$") = true /\
  @compileError offline "\.example\.com$" = None /\
  @parseLine offline
    (@BlacklistRule_String offline
       (setRegexp (regexp.mkRegexp "\.example\.com$") (setNegation false zeroRule)))
  = Returns (Some (setRegexp (regexp.mkRegexp "\.example\.com$") (setNegation false zeroRule))).
Proof.
  split; [reflexivity|]. split; [reflexivity|]. split; [reflexivity|].
  apply (@regexp_rule_round_trip offline false "\.example\.com$"); reflexivity.
Defined.

(** The negated rule for the host [example.com]. *)
Lemma hostname_rule_round_trip_witness :
  plainHostname "example.com" = true /\
  @net.ParseCIDR offline "example.com" = inr "invalid CIDR address: example.com" /\
  @net.ParseIP offline "example.com" = None /\
  @strings.ToLower offline "example.com" = "example.com" /\
  @parseLine offline
    (@BlacklistRule_String offline (setHostname "example.com" (setNegation true zeroRule)))
  = Returns (Some (setHostname "example.com" (setNegation true zeroRule))).
Proof.
  split; [reflexivity|]. split; [reflexivity|]. split; [reflexivity|]. split; [reflexivity|].
  apply (@hostname_rule_round_trip offline true "example.com");
    [reflexivity | eexists; reflexivity | reflexivity | reflexivity].
Defined.

(** Two geofences under the [undefinedDistance] library. *)
Lemma Intersection_undefined_distance_witness :
  PrimFloat.is_nan (@GreatCircleDistance undefinedDistance (NewPoint 48 2) (NewPoint 0 0)) = true /\
  @Intersection undefinedDistance (mkGeofence 48 2 1000) (mkGeofence 0 0 25) = 0%N.
Proof.
  split; [reflexivity|].
  apply (@Intersection_undefined_distance undefinedDistance). reflexivity.
Defined.

(** A geofence rule of radius 1000 m around the place where [sampleGeoDB]
    puts every address, under the [flat] distance. *)
Lemma geofence_rule_matches_witness :
  isGeofenceRule (setGeofence (mkGeofence 48 2 1000) zeroRule) = true /\
  @matches flat offline (mkContext (Some sampleGeoDB) None) (net.IPv4 8 8 8 8)
    (setGeofence (mkGeofence 48 2 1000) zeroRule)
  = negb (fgt (1000 + Radius (userGeofence sampleCity))
              (@metres flat (mkGeofence 48 2 1000) (userGeofence sampleCity))).
Proof.
  split; [reflexivity|].
  apply (@geofence_rule_matches flat offline sampleGeoDB None (net.IPv4 8 8 8 8)
           (setGeofence (mkGeofence 48 2 1000) zeroRule) (mkGeofence 48 2 1000) sampleCity);
    reflexivity.
Defined.
